(** * Portfolio optimizer: a shallow embedding of [src/portfolio_optimizer.py]

    The development follows the class [PortfolioOptimizer]: its cached
    statistics ([fetch_data]), the metrics function ([portfolio_stats]) with
    the two objectives built on it, the orchestration of the two constrained
    minimisations ([optimize]) and the random sampling loop of
    [plot_efficient_frontier].

    Numbers.  The program computes on IEEE binary64 values through numpy and
    pandas.  They are modelled here as extended reals: a finite value is an
    exact real number, and the three special values +inf, -inf and NaN follow
    the IEEE rules (a division by zero yields an infinity or NaN and raises
    nothing, the square root of a negative number is NaN, NaN is absorbing).
    Rounding, overflow and the sign of zero are not modelled.

    Collaborators.  The market-data download, the SLSQP solver, the random
    generator and the plotting library are parameters of the sections that
    use them; printing has no effect on the values computed and is left
    out. *)

From Stdlib Require Import String Reals Lra Lia ZArith Bool Arith List.
From Stdlib Require Import FunctionalExtensionality.
Import ListNotations.
Open Scope R_scope.

(** ** Floating-point values as extended reals *)

Module NpFloat.

Inductive float64 : Type :=
| Fin (r : R)
| PInf
| NInf
| NaN.

Inductive sign : Type := Neg | Zero | Pos.

Definition Rsign (r : R) : sign :=
  match total_order_T r 0 with
  | inleft (left _) => Neg
  | inleft (right _) => Zero
  | inright _ => Pos
  end.

Definition isnan (x : float64) : bool :=
  match x with NaN => true | _ => false end.

Definition notna (x : float64) : bool := negb (isnan x).

Definition is_finite (x : float64) : Prop :=
  match x with Fin _ => True | _ => False end.

(** The infinity with the sign of a finite numerator; NaN for zero. *)
Definition inf_of_sign (s : sign) : float64 :=
  match s with Pos => PInf | Neg => NInf | Zero => NaN end.

Definition np_neg (x : float64) : float64 :=
  match x with
  | Fin r => Fin (- r)
  | PInf => NInf
  | NInf => PInf
  | NaN => NaN
  end.

Definition np_add (x y : float64) : float64 :=
  match x, y with
  | NaN, _ | _, NaN => NaN
  | Fin a, Fin b => Fin (a + b)
  | PInf, NInf | NInf, PInf => NaN
  | PInf, _ | _, PInf => PInf
  | NInf, _ | _, NInf => NInf
  end.

Definition np_sub (x y : float64) : float64 := np_add x (np_neg y).

Definition np_mul (x y : float64) : float64 :=
  match x, y with
  | NaN, _ | _, NaN => NaN
  | Fin a, Fin b => Fin (a * b)
  | Fin a, PInf | PInf, Fin a => inf_of_sign (Rsign a)
  | Fin a, NInf | NInf, Fin a => np_neg (inf_of_sign (Rsign a))
  | PInf, PInf | NInf, NInf => PInf
  | PInf, NInf | NInf, PInf => NInf
  end.

(** True division.  No exception: numpy scalars and arrays only warn. *)
Definition np_div (x y : float64) : float64 :=
  match x, y with
  | NaN, _ | _, NaN => NaN
  | Fin a, Fin b =>
      match Rsign b with
      | Zero => inf_of_sign (Rsign a)
      | _ => Fin (a / b)
      end
  | Fin _, (PInf | NInf) => Fin 0
  | PInf, Fin b => match Rsign b with Neg => NInf | _ => PInf end
  | NInf, Fin b => match Rsign b with Neg => PInf | _ => NInf end
  | (PInf | NInf), (PInf | NInf) => NaN
  end.

Definition np_sqrt (x : float64) : float64 :=
  match x with
  | Fin r => match Rsign r with Neg => NaN | _ => Fin (sqrt r) end
  | PInf => PInf
  | NInf | NaN => NaN
  end.

(** The comparison [x <= y]; false as soon as one side is NaN. *)
Definition np_le (x y : float64) : Prop :=
  match x, y with
  | NaN, _ | _, NaN => False
  | Fin a, Fin b => a <= b
  | NInf, _ | _, PInf => True
  | _, _ => False
  end.

End NpFloat.
Import NpFloat.

(** ** Python exceptions *)

Inductive exn : Type :=
| TypeError
| ValueError
| IndexError
| ZeroDivisionError.

Inductive result (A : Type) : Type :=
| Ok (a : A)
| Raise (e : exn).
Arguments Ok {A} a.
Arguments Raise {A} e.

Definition bind {A B : Type} (m : result A) (k : A -> result B) : result B :=
  match m with
  | Ok a => k a
  | Raise e => Raise e
  end.

Notation "x <- m ;; k" := (bind m (fun x => k))
  (at level 61, m at next level, right associativity).

Fixpoint mapM {A B : Type} (f : A -> result B) (l : list A) : result (list B) :=
  match l with
  | [] => Ok []
  | a :: l' => b <- f a ;; bs <- mapM f l' ;; Ok (b :: bs)
  end.

(** ** Arrays, Series and DataFrames *)

Definition ndarray := list float64.
Definition Series := list float64.
Definition matrix := list (list float64).

(** A DataFrame keeps its column labels, so that a frame without rows still
    has a width. *)
Record DataFrame : Type := mkDataFrame {
  columns : list string;
  rows : list (list float64)
}.

Fixpoint map2 {A B C : Type} (f : A -> B -> C) (l : list A) (m : list B) : list C :=
  match l, m with
  | a :: l', b :: m' => f a b :: map2 f l' m'
  | _, _ => []
  end.

(** [np.sum] of an array: a plain running sum. *)
Definition np_sum (a : ndarray) : float64 := fold_left np_add a (Fin 0).

(** [np.sum] of a pandas Series dispatches to [Series.sum], which skips NaN. *)
Definition series_sum (s : Series) : float64 := np_sum (filter notna s).

(** [series * array], element by element.  Operands of different lengths end
    in a ValueError, here or (where numpy would broadcast a one-element
    operand) at the [np.dot] that follows in [portfolio_stats]. *)
Definition series_mul (s : Series) (a : ndarray) : result Series :=
  if Nat.eqb (length s) (length a) then Ok (map2 np_mul s a)
  else Raise ValueError.

(** [np.dot] of two one-dimensional arrays. *)
Definition np_dot (a b : ndarray) : result float64 :=
  if Nat.eqb (length a) (length b) then Ok (np_sum (map2 np_mul a b))
  else Raise ValueError.

(** [np.dot] of a two-dimensional array with a one-dimensional one. *)
Definition np_dot_mv (m : matrix) (v : ndarray) : result ndarray :=
  mapM (fun row => np_dot row v) m.

(** ** The optimizer object *)

Record PortfolioOptimizer : Type := mkPortfolioOptimizer {
  symbols : list string;
  start_date : string;
  end_date : string;
  risk_free_rate : float64;
  returns : option DataFrame;
  mean_returns : option Series;
  cov_matrix : option matrix
}.

(** [__init__] *)
Definition init (syms : list string) (start_d end_d : string) (rf : float64)
  : PortfolioOptimizer :=
  mkPortfolioOptimizer syms start_d end_d rf None None None.

(** Reading an attribute that still holds [None] and computing with it: a
    TypeError as soon as the weight array has an entry.  (On an empty array
    numpy has no element to combine with the [None] and goes on; that corner
    of an object without statistics is not distinguished here.) *)
Definition attr {A : Type} (o : option A) : result A :=
  match o with
  | Some a => Ok a
  | None => Raise TypeError
  end.

(** [portfolio_stats]: (annual return, annual volatility, Sharpe ratio). *)
Definition portfolio_stats (self : PortfolioOptimizer) (weights : ndarray)
  : result (float64 * float64 * float64) :=
  mu <- attr (mean_returns self) ;;
  prod <- series_mul mu weights ;;
  let portfolio_return := series_sum prod in
  cov <- attr (cov_matrix self) ;;
  cw <- np_dot_mv cov weights ;;
  var <- np_dot weights cw ;;
  let portfolio_std := np_sqrt var in
  let sharpe_ratio :=
    np_div (np_sub portfolio_return (risk_free_rate self)) portfolio_std in
  Ok (portfolio_return, portfolio_std, sharpe_ratio).

(** [negative_sharpe] *)
Definition negative_sharpe (self : PortfolioOptimizer) (weights : ndarray)
  : result float64 :=
  st <- portfolio_stats self weights ;;
  Ok (np_neg (snd st)).

(** [portfolio_volatility] *)
Definition portfolio_volatility (self : PortfolioOptimizer) (weights : ndarray)
  : result float64 :=
  st <- portfolio_stats self weights ;;
  Ok (snd (fst st)).

(** ** Statistics of the return series ([fetch_data]) *)

(** What indexing the download by ['Adj Close'] yields: a Series for a single
    ticker, a DataFrame otherwise. *)
Inductive downloaded : Type :=
| PdSeries (s : Series)
| PdDataFrame (df : DataFrame).

(** [s.to_frame(name)] *)
Definition to_frame (s : Series) (name : string) : DataFrame :=
  mkDataFrame [name] (map (fun x => [x]) s).

(** [df.pct_change()] is [df / df.shift(1) - 1]: row [t] against row [t-1],
    the first row against a row of NaN.  (The forward fill that older pandas
    versions apply to gaps beforehand is not modelled.) *)
Fixpoint pct_rows (prev : list float64) (rs : list (list float64))
  : list (list float64) :=
  match rs with
  | [] => []
  | r :: rs' =>
      map2 (fun p q => np_sub (np_div p q) (Fin 1)) r prev :: pct_rows r rs'
  end.

Definition pct_change (df : DataFrame) : DataFrame :=
  mkDataFrame (columns df)
              (pct_rows (repeat NaN (length (columns df))) (rows df)).

(** [df.dropna()]: rows with a missing value are removed. *)
Definition dropna (df : DataFrame) : DataFrame :=
  mkDataFrame (columns df) (filter (forallb notna) (rows df)).

Definition column (j : nat) (rs : list (list float64)) : list float64 :=
  map (fun r => nth j r NaN) rs.

(** The frame seen column by column. *)
Definition column_values (df : DataFrame) : list (list float64) :=
  map (fun j => column j (rows df)) (seq 0 (length (columns df))).

(** The mean of one column, missing values skipped; NaN when none is left. *)
Definition nanmean (col : list float64) : float64 :=
  let vals := filter notna col in
  match length vals with
  | O => NaN
  | S _ => np_div (np_sum vals) (Fin (INR (length vals)))
  end.

(** [df.mean()]: one mean per column. *)
Definition df_mean (df : DataFrame) : Series :=
  map nanmean (column_values df).

(** [np.cov(X, ddof=1)], one row of [X] per variable and [nobs] observations
    each: the deviations from the row means, their pairwise dot products, and
    the factor [1 / (nobs - 1)], whose denominator is replaced by [0.0] when
    it is not positive.  A frame without missing values takes this path in
    [DataFrame.cov]. *)
Definition np_mean (xs : list float64) : float64 :=
  np_div (np_sum xs) (Fin (INR (length xs))).

Definition deviations (xs : list float64) : list float64 :=
  map (fun x => np_sub x (np_mean xs)) xs.

Definition cov_fact (nobs : nat) : float64 :=
  if Nat.leb nobs 1 then Fin 0 else Fin (INR nobs - 1).

Definition np_cov (nobs : nat) (X : list (list float64)) : matrix :=
  let D := map deviations X in
  map (fun di =>
         map (fun dj =>
                np_mul (np_sum (map2 np_mul di dj))
                       (np_div (Fin 1) (cov_fact nobs)))
             D)
      D.

(** [df.cov()] on a frame without missing values. *)
Definition df_cov (df : DataFrame) : matrix :=
  np_cov (length (rows df)) (column_values df).

Definition series_scale (s : Series) (c : R) : Series :=
  map (fun x => np_mul x (Fin c)) s.

Definition matrix_scale (m : matrix) (c : R) : matrix :=
  map (fun row => series_scale row c) m.

(** [if isinstance(data, pd.Series): data = data.to_frame(self.symbols[0])] *)
Definition as_frame (data : downloaded) (syms : list string) : result DataFrame :=
  match data with
  | PdSeries s =>
      match syms with
      | name :: _ => Ok (to_frame s name)
      | [] => Raise IndexError
      end
  | PdDataFrame df => Ok df
  end.

Section FetchData.

(** [yf.download(symbols, start=..., end=..., progress=False)['Adj Close']] *)
Variable download : list string -> string -> string -> downloaded.

Definition fetch_data (self : PortfolioOptimizer) : result PortfolioOptimizer :=
  data <- as_frame (download (symbols self) (start_date self) (end_date self))
                   (symbols self) ;;
  let rets := dropna (pct_change data) in
  Ok (mkPortfolioOptimizer
        (symbols self) (start_date self) (end_date self) (risk_free_rate self)
        (Some rets)
        (Some (series_scale (df_mean rets) 252))
        (Some (matrix_scale (df_cov rets) 252))).

End FetchData.

(** ** The constrained minimisations ([optimize]) *)

(** The fields of scipy's [OptimizeResult] that describe the outcome. *)
Record OptimizeResult : Type := mkOptimizeResult {
  x : ndarray;
  success : bool;
  status : Z;
  message : string
}.

Inductive constraint_type : Type := CEq | CIneq.

(** A constraint dictionary [{'type': ..., 'fun': ...}]. *)
Record constraint : Type := mkConstraint {
  ctype : constraint_type;
  cfun : ndarray -> float64
}.

(** A Python [dict] with string keys: insertion order, one entry per key,
    the last value written wins. *)
Definition dict (V : Type) := list (string * V).

Fixpoint dict_set {V : Type} (k : string) (v : V) (d : dict V) : dict V :=
  match d with
  | [] => [(k, v)]
  | (k', v') :: d' =>
      if String.eqb k k' then (k, v) :: d' else (k', v') :: dict_set k v d'
  end.

Definition dict_of_pairs {V : Type} (kvs : list (string * V)) : dict V :=
  fold_left (fun d kv => dict_set (fst kv) (snd kv) d) kvs [].

(** One entry of the dictionary that [optimize] returns. *)
Record Portfolio : Type := mkPortfolio {
  weights : dict float64;
  p_return : float64;
  p_volatility : float64;
  p_sharpe : float64
}.

(** The returned dictionary; its three keys are fixed. *)
Record Results : Type := mkResults {
  max_sharpe : Portfolio;
  min_volatility : Portfolio;
  equal_weight : Portfolio
}.

(** [np.array([1/num_assets] * num_assets)]; the quotient of two Python
    integers raises when the divisor is zero. *)
Definition uniform_weights (num_assets : nat) : result ndarray :=
  match num_assets with
  | O => Raise ZeroDivisionError
  | S _ => Ok (repeat (Fin (1 / INR num_assets)) num_assets)
  end.

(** [lambda x: np.sum(x) - 1] *)
Definition sum_to_one (v : ndarray) : float64 := np_sub (np_sum v) (Fin 1).

Definition make_portfolio (self : PortfolioOptimizer) (w : ndarray)
  (stats : float64 * float64 * float64) : Portfolio :=
  mkPortfolio (dict_of_pairs (combine (symbols self) w))
              (fst (fst stats)) (snd (fst stats)) (snd stats).

Section Optimize.

Variable download : list string -> string -> string -> downloaded.

(** [scipy.optimize.minimize(fun, x0, method='SLSQP', bounds=..., constraints=...)] *)
Variable minimize :
  (ndarray -> result float64) -> ndarray -> list (float64 * float64) ->
  list constraint -> result OptimizeResult.

(** [if self.returns is None: self.fetch_data()] *)
Definition ensure_data (self : PortfolioOptimizer) : result PortfolioOptimizer :=
  match returns self with
  | None => fetch_data download self
  | Some _ => Ok self
  end.

(** [optimize] returns the object as the call leaves it and the results. *)
Definition optimize (self0 : PortfolioOptimizer)
  : result (PortfolioOptimizer * Results) :=
  self <- ensure_data self0 ;;
  let num_assets := length (symbols self) in
  let constraints := [mkConstraint CEq sum_to_one] in
  let bounds := repeat (Fin 0, Fin 1) num_assets in
  init_guess <- uniform_weights num_assets ;;
  opt_sharpe <- minimize (negative_sharpe self) init_guess bounds constraints ;;
  opt_var <- minimize (portfolio_volatility self) init_guess bounds constraints ;;
  equal_weights <- uniform_weights num_assets ;;
  sharpe_stats <- portfolio_stats self (x opt_sharpe) ;;
  var_stats <- portfolio_stats self (x opt_var) ;;
  equal_stats <- portfolio_stats self equal_weights ;;
  Ok (self,
      mkResults (make_portfolio self (x opt_sharpe) sharpe_stats)
                (make_portfolio self (x opt_var) var_stats)
                (make_portfolio self equal_weights equal_stats)).

(** ** The random portfolios of [plot_efficient_frontier] *)

(** The state of numpy's global generator, and [np.random.random(n)]. *)
Variable rng_state : Type.
Variable np_random : nat -> rng_state -> ndarray * rng_state.

(** [weights /= np.sum(weights)] *)
Definition normalize (w : ndarray) : ndarray :=
  map (fun wi => np_div wi (np_sum w)) w.

(** The weight vector of one iteration. *)
Definition sample_weights (self : PortfolioOptimizer) (g : rng_state)
  : ndarray * rng_state :=
  let (w, g') := np_random (length (symbols self)) g in
  (normalize w, g').

(** The three lists that the loop fills. *)
Record Samples : Type := mkSamples {
  returns_list : list float64;
  volatility_list : list float64;
  sharpe_list : list float64
}.

Definition append_sample (acc : Samples) (st : float64 * float64 * float64)
  : Samples :=
  mkSamples (returns_list acc ++ [fst (fst st)])
            (volatility_list acc ++ [snd (fst st)])
            (sharpe_list acc ++ [snd st]).

(** [for _ in range(num_portfolios): ...] *)
Fixpoint sample_loop (self : PortfolioOptimizer) (n : nat) (g : rng_state)
  (acc : Samples) : result (Samples * rng_state) :=
  match n with
  | O => Ok (acc, g)
  | S n' =>
      let (w, g') := sample_weights self g in
      st <- portfolio_stats self w ;;
      sample_loop self n' g' (append_sample acc st)
  end.

(** What the call hands to the plotting library: the scatter of the random
    portfolios and the three optimal portfolios.  The drawing itself, which
    may fail, is the [render] step of [plot_run] below. *)
Record Plot : Type := mkPlot {
  scatter : Samples;
  stars : Results
}.

Definition plot_efficient_frontier (self0 : PortfolioOptimizer)
  (num_portfolios : Z) (g : rng_state)
  : result (PortfolioOptimizer * rng_state * Plot) :=
  self <- ensure_data self0 ;;
  sg <- sample_loop self (Z.to_nat num_portfolios) g (mkSamples [] [] []) ;;
  sr <- optimize self ;;
  Ok (fst sr, snd sg, mkPlot (fst sg) (snd sr)).

End Optimize.

(** ** The calls as transitions of the object *)

Section Calls.

Variable download : list string -> string -> string -> downloaded.

Variable minimize :
  (ndarray -> result float64) -> ndarray -> list (float64 * float64) ->
  list constraint -> result OptimizeResult.

Variable rng_state : Type.
Variable np_random : nat -> rng_state -> ndarray * rng_state.

(** What matplotlib does with the figure: it is drawn, saved with
    [plt.savefig] under docs/images/ and shown; any of these may raise. *)
Variable render : Plot -> result unit.

(** [optimize] together with the object it leaves behind.  Only line 95
    writes to the object, so what [fetch_data] stored stays on it when a
    later line raises; an exception of [fetch_data] itself comes before its
    first assignment. *)
Definition optimize_run (self0 : PortfolioOptimizer)
  : PortfolioOptimizer * result Results :=
  match ensure_data download self0 with
  | Raise e => (self0, Raise e)
  | Ok self =>
      (self,
       let num_assets := length (symbols self) in
       let constraints := [mkConstraint CEq sum_to_one] in
       let bounds := repeat (Fin 0, Fin 1) num_assets in
       init_guess <- uniform_weights num_assets ;;
       opt_sharpe <- minimize (negative_sharpe self) init_guess bounds constraints ;;
       opt_var <- minimize (portfolio_volatility self) init_guess bounds constraints ;;
       equal_weights <- uniform_weights num_assets ;;
       sharpe_stats <- portfolio_stats self (x opt_sharpe) ;;
       var_stats <- portfolio_stats self (x opt_var) ;;
       equal_stats <- portfolio_stats self equal_weights ;;
       Ok (mkResults (make_portfolio self (x opt_sharpe) sharpe_stats)
                     (make_portfolio self (x opt_var) var_stats)
                     (make_portfolio self equal_weights equal_stats)))
  end.

(** [plot_efficient_frontier] together with the object it leaves behind.
    (The state of the generator after an exception is not followed.) *)
Definition plot_run (self0 : PortfolioOptimizer) (num_portfolios : Z)
  (g : rng_state) : PortfolioOptimizer * result (rng_state * Plot) :=
  match ensure_data download self0 with
  | Raise e => (self0, Raise e)
  | Ok self =>
      match sample_loop rng_state np_random self (Z.to_nat num_portfolios) g
                        (mkSamples [] [] []) with
      | Raise e => (self, Raise e)
      | Ok sg =>
          let (self', outcome) := optimize_run self in
          (self',
           results <- outcome ;;
           _ <- render (mkPlot (fst sg) results) ;;
           Ok (snd sg, mkPlot (fst sg) results))
      end
  end.

End Calls.

(** ** The formulas of the specification, over the reals *)

Definition Rsum (l : list R) : R := fold_right Rplus 0 l.

(** The dot product [a . b]. *)
Definition dot (a b : list R) : R := Rsum (map2 Rmult a b).

(** The quadratic form [w^T C w] as the double sum of [w_i * C_ij * w_j]. *)
Definition quad_form (w : list R) (C : list (list R)) : R :=
  Rsum (map2 (fun wi row => Rsum (map2 (fun cij wj => wi * cij * wj) row w)) w C).

(** The weight vector with all weight on asset [k] among [n]. *)
Definition unit_vector (n k : nat) : list R :=
  map (fun i => if Nat.eqb i k then 1 else 0) (seq 0 n).

(** The sample statistics of the specification: the mean of a column and the
    covariance of two columns with the [n - 1] denominator. *)
Definition sample_mean (xs : list R) : R := Rsum xs / INR (length xs).

Definition sample_cov (xs ys : list R) : R :=
  Rsum (map2 (fun a b => (a - sample_mean xs) * (b - sample_mean ys)) xs ys)
  / (INR (length xs) - 1).

Definition rcolumn (j : nat) (X : list (list R)) : list R :=
  map (fun r => nth j r 0) X.

Definition rcolumns (k : nat) (X : list (list R)) : list (list R) :=
  map (fun j => rcolumn j X) (seq 0 k).

(** A statistics pair of matching dimensions: one mean per asset and a square
    covariance matrix. *)
Definition square (n : nat) (C : list (list R)) : Prop :=
  length C = n /\ Forall (fun row => length row = n) C.

(** The optimizer holds the finite statistics [mu], [C] and the rate [rf]. *)
Definition holds_stats (self : PortfolioOptimizer) (mu : list R)
  (C : list (list R)) (rf : R) : Prop :=
  mean_returns self = Some (map Fin mu) /\
  cov_matrix self = Some (map (map Fin) C) /\
  risk_free_rate self = Fin rf.

(** ** Notions used in the statements *)

(** The Sharpe-ratio and volatility components of [portfolio_stats]. *)
Definition sharpe_of (self : PortfolioOptimizer) (w : ndarray) : result float64 :=
  st <- portfolio_stats self w ;; Ok (snd st).

Definition volatility_of (self : PortfolioOptimizer) (w : ndarray) : result float64 :=
  st <- portfolio_stats self w ;; Ok (snd (fst st)).

(** [w] is feasible and no feasible point has a smaller objective value. *)
Definition minimizes (obj : ndarray -> result float64)
  (feasible : ndarray -> Prop) (w : ndarray) : Prop :=
  feasible w /\
  exists v, obj w = Ok v /\
            forall w', feasible w' -> exists v', obj w' = Ok v' /\ np_le v v'.

Definition maximizes (obj : ndarray -> result float64)
  (feasible : ndarray -> Prop) (w : ndarray) : Prop :=
  feasible w /\
  exists v, obj w = Ok v /\
            forall w', feasible w' -> exists v', obj w' = Ok v' /\ np_le v' v.

(** The iterate of a solver outcome, all that [optimize] reads of it. *)
Definition iterate_of (r : result OptimizeResult) : result ndarray :=
  r' <- r ;; Ok (x r').

(** What a deviation from the mean of a single observation can be. *)
Definition zero_or_nan (v : float64) : Prop := v = NaN \/ v = Fin 0.

(** A finite weight in the half-open interval [0, 1). *)
Definition in_half_open_unit (v : float64) : Prop :=
  exists r, v = Fin r /\ 0 <= r < 1.

(** The statistics have one mean per symbol and a square covariance matrix
    of the same size. *)
Definition well_shaped (self : PortfolioOptimizer) : Prop :=
  exists mu cov,
    mean_returns self = Some mu
    /\ cov_matrix self = Some cov
    /\ length mu = length (symbols self)
    /\ length cov = length (symbols self)
    /\ Forall (fun row => length row = length (symbols self)) cov.

(** ** Example inputs *)

(** Two closing prices of one ticker: a single return is left. *)
Definition two_prices : DataFrame :=
  mkDataFrame ["A"%string] [[Fin 100]; [Fin 110]].

Definition download_two_prices (_ : list string) (_ _ : string) : downloaded :=
  PdDataFrame two_prices.

Definition one_ticker : PortfolioOptimizer :=
  init ["A"%string] "2020-01-01" "2020-01-03" (Fin (1 / 50)).

(** Three closing prices of two tickers.  Ticker A doubles every day, so its
    return is constant and its variance is zero. *)
Definition two_asset_prices : DataFrame :=
  mkDataFrame ["A"%string; "B"%string]
              [[Fin 1; Fin 1]; [Fin 2; Fin 1]; [Fin 4; Fin 2]].

Definition download_two_assets (_ : list string) (_ _ : string) : downloaded :=
  PdDataFrame two_asset_prices.

Definition two_assets : PortfolioOptimizer :=
  init ["A"%string; "B"%string] "2020-01-01" "2020-01-04" (Fin (1 / 50)).

Definition two_asset_returns : list (list R) := [[1; 0]; [1; 1]].

Definition two_asset_means : list R := [252; 126].

Definition two_asset_cov : list (list R) := [[0; 0]; [0; 126]].

(** The object after its first [fetch_data]. *)
Definition two_assets_fetched : PortfolioOptimizer :=
  mkPortfolioOptimizer
    ["A"%string; "B"%string] "2020-01-01" "2020-01-04" (Fin (1 / 50))
    (Some (mkDataFrame ["A"%string; "B"%string] (map (map Fin) two_asset_returns)))
    (Some (map Fin two_asset_means))
    (Some (map (map Fin) two_asset_cov)).

(** A solver that gives up at once: it hands back its starting point and
    reports SLSQP's exit mode 9. *)
Definition solver_gives_up (f : ndarray -> result float64) (x0 : ndarray)
  (bounds : list (float64 * float64)) (cons : list constraint)
  : result OptimizeResult :=
  Ok (mkOptimizeResult x0 false 9 "Iteration limit reached").

(** A solver with the same iterate that reports success. *)
Definition solver_claims_success (f : ndarray -> result float64) (x0 : ndarray)
  (bounds : list (float64 * float64)) (cons : list constraint)
  : result OptimizeResult :=
  Ok (mkOptimizeResult x0 true 0 "Optimization terminated successfully").

Definition half_half_portfolio : Portfolio :=
  mkPortfolio [("A"%string, Fin (1 / 2)); ("B"%string, Fin (1 / 2))]
              (Fin 189) (Fin (sqrt (63 / 2)))
              (Fin ((189 - 1 / 50) / sqrt (63 / 2))).

Definition half_half_results : Results :=
  mkResults half_half_portfolio half_half_portfolio half_half_portfolio.

(** A generator that draws 1/2 for every asset. *)
Definition draw_halves (n : nat) (g : unit) : ndarray * unit :=
  (repeat (Fin (1 / 2)) n, tt).

(** A solver that stops on the second asset without converging: its iterate
    is not its starting point and it reports SLSQP's exit mode 9. *)
Definition solver_stalls (f : ndarray -> result float64) (x0 : ndarray)
  (bounds : list (float64 * float64)) (cons : list constraint)
  : result OptimizeResult :=
  Ok (mkOptimizeResult [Fin 0; Fin 1] false 9 "Iteration limit reached").

Definition stalled_iterate : OptimizeResult :=
  mkOptimizeResult [Fin 0; Fin 1] false 9 "Iteration limit reached".

Definition all_in_B_stats : float64 * float64 * float64 :=
  (Fin 126, Fin (sqrt 126), Fin ((126 - 1 / 50) / sqrt 126)).

Definition half_half_stats : float64 * float64 * float64 :=
  (Fin 189, Fin (sqrt (63 / 2)), Fin ((189 - 1 / 50) / sqrt (63 / 2))).

Definition all_in_B_portfolio : Portfolio :=
  mkPortfolio [("A"%string, Fin 0); ("B"%string, Fin 1)]
              (Fin 126) (Fin (sqrt 126)) (Fin ((126 - 1 / 50) / sqrt 126)).

Definition stalled_results : Results :=
  mkResults all_in_B_portfolio all_in_B_portfolio half_half_portfolio.

(** A plotting library that draws without error. *)
Definition render_ok (_ : Plot) : result unit := Ok tt.

(** ** Real-valued counterparts used in the further properties *)

(** Simple period-over-period returns of a price table: row [t] against row
    [t-1], entry by entry. *)
Fixpoint simple_rows (prev : list R) (rs : list (list R)) : list (list R) :=
  match rs with
  | [] => []
  | r :: rs' => map2 (fun p q => p / q - 1) r prev :: simple_rows r rs'
  end.

Definition simple_returns (P : list (list R)) : list (list R) :=
  match P with
  | [] => []
  | p0 :: rest => simple_rows p0 rest
  end.

(** The annualised statistics of a finite return table with [k] columns. *)
Definition annual_mean (k : nat) (X : list (list R)) : list R :=
  map (fun xs => sample_mean xs * 252) (rcolumns k X).

Definition annual_cov (k : nat) (X : list (list R)) : list (list R) :=
  map (fun xs => map (fun ys => sample_cov xs ys * 252) (rcolumns k X))
      (rcolumns k X).

(** Lookup in a dictionary. *)
Fixpoint dict_get {V : Type} (k : string) (d : dict V) : option V :=
  match d with
  | [] => None
  | (k', v) :: d' => if String.eqb k k' then Some v else dict_get k d'
  end.

(** The weight vectors of [n] successive iterations of the sampling loop,
    and the generator state after them. *)
Fixpoint sample_seq (rng_state : Type)
  (np_random : nat -> rng_state -> ndarray * rng_state)
  (self : PortfolioOptimizer) (n : nat) (g : rng_state)
  : list ndarray * rng_state :=
  match n with
  | O => ([], g)
  | S n' =>
      let (w, g1) := sample_weights rng_state np_random self g in
      let (ws, g2) := sample_seq rng_state np_random self n' g1 in
      (w :: ws, g2)
  end.

(** The three lists filled from a list of statistics triples. *)
Definition samples_of (sts : list (float64 * float64 * float64)) : Samples :=
  mkSamples (map (fun st => fst (fst st)) sts)
            (map (fun st => snd (fst st)) sts)
            (map snd sts).

(** An optimizer without symbols, and a generator that draws zeros. *)
Definition no_symbols : PortfolioOptimizer :=
  mkPortfolioOptimizer [] "2020-01-01" "2020-01-04" (Fin (1 / 50))
                       (Some (mkDataFrame [] [])) (Some []) (Some []).

Definition draw_zeros (n : nat) (g : unit) : ndarray * unit :=
  (repeat (Fin 0) n, tt).

(** A single ticker that comes back as a Series. *)
Definition download_series (_ : list string) (_ _ : string) : downloaded :=
  PdSeries [Fin 1; Fin 2; Fin 4].


(** The plot of the two-asset instance with one random portfolio. *)
Definition half_half_plot : Plot :=
  mkPlot (mkSamples [Fin 189] [Fin (sqrt (63 / 2))]
                    [Fin ((189 - 1 / 50) / sqrt (63 / 2))])
         half_half_results.


(** ** Finite values compute as reals *)

Lemma Rsign_pos (r : R) : 0 < r -> Rsign r = Pos.
Proof.
  intros H. unfold Rsign.
  destruct (total_order_T r 0) as [[Hlt | Heq] | Hgt]; try reflexivity; lra.
Qed.

Lemma Rsign_neg (r : R) : r < 0 -> Rsign r = Neg.
Proof.
  intros H. unfold Rsign.
  destruct (total_order_T r 0) as [[Hlt | Heq] | Hgt]; try reflexivity; lra.
Qed.

Lemma Rsign_zero : Rsign 0 = Zero.
Proof.
  unfold Rsign.
  destruct (total_order_T 0 0) as [[Hlt | Heq] | Hgt]; try reflexivity; lra.
Qed.

Lemma fold_np_add_fin (l : list R) :
  forall a, fold_left np_add (map Fin l) (Fin a) = Fin (a + Rsum l).
Proof.
  induction l as [| r l IH]; intros a; simpl.
  - f_equal. lra.
  - rewrite IH. f_equal. lra.
Qed.

Lemma np_sum_fin (l : list R) : np_sum (map Fin l) = Fin (Rsum l).
Proof.
  unfold np_sum. rewrite fold_np_add_fin. f_equal. lra.
Qed.

Lemma map2_np_mul_fin (a : list R) :
  forall b, map2 np_mul (map Fin a) (map Fin b) = map Fin (map2 Rmult a b).
Proof.
  induction a as [| r a IH]; intros [| s b]; simpl; try reflexivity.
  now rewrite IH.
Qed.

Lemma filter_notna_fin (l : list R) : filter notna (map Fin l) = map Fin l.
Proof.
  induction l as [| r l IH]; simpl; [reflexivity | now rewrite IH].
Qed.

Lemma series_sum_fin (l : list R) : series_sum (map Fin l) = Fin (Rsum l).
Proof.
  unfold series_sum. rewrite filter_notna_fin. apply np_sum_fin.
Qed.

Lemma np_dot_fin (a b : list R) :
  length a = length b -> np_dot (map Fin a) (map Fin b) = Ok (Fin (dot a b)).
Proof.
  intros H. unfold np_dot. rewrite !length_map, H, Nat.eqb_refl.
  now rewrite map2_np_mul_fin, np_sum_fin.
Qed.

Lemma np_dot_mv_fin (C : list (list R)) (w : list R) :
  Forall (fun row => length row = length w) C ->
  np_dot_mv (map (map Fin) C) (map Fin w)
  = Ok (map Fin (map (fun row => dot row w) C)).
Proof.
  unfold np_dot_mv.
  induction 1 as [| row C Hrow _ IH]; simpl; [reflexivity |].
  rewrite (np_dot_fin row w Hrow). simpl. rewrite IH. reflexivity.
Qed.

Lemma map2_comm {A B : Type} (f : A -> A -> B) (a : list A) :
  (forall u v, f u v = f v u) -> forall b, map2 f a b = map2 f b a.
Proof.
  intros Hf. induction a as [| u a IH]; intros [| v b]; simpl; try reflexivity.
  now rewrite Hf, IH.
Qed.

Lemma dot_comm (a b : list R) : dot a b = dot b a.
Proof.
  unfold dot. f_equal. apply map2_comm. intros; lra.
Qed.

Lemma Rsum_scaled_row (c : R) (row : list R) :
  forall w, Rsum (map2 (fun cij wj => c * cij * wj) row w) = c * dot row w.
Proof.
  unfold dot.
  induction row as [| r row IH]; intros [| v w]; simpl; try lra.
  rewrite IH. lra.
Qed.

(** The value the code computes, [w . (C w)], is the quadratic form. *)
Lemma dot_matvec_quad_form (w0 : list R) (C : list (list R)) :
  forall w, dot w (map (fun row => dot row w0) C)
            = Rsum (map2 (fun wi row =>
                            Rsum (map2 (fun cij wj => wi * cij * wj) row w0)) w C).
Proof.
  unfold dot.
  induction C as [| row C IH]; intros [| v w]; simpl; try reflexivity.
  rewrite IH, Rsum_scaled_row. unfold dot. reflexivity.
Qed.

Lemma portfolio_stats_finite (self : PortfolioOptimizer) (mu : list R)
  (C : list (list R)) (rf : R) (w : list R) :
  holds_stats self mu C rf ->
  length mu = length w ->
  square (length w) C ->
  portfolio_stats self (map Fin w)
  = Ok (Fin (dot w mu),
        np_sqrt (Fin (quad_form w C)),
        np_div (Fin (dot w mu - rf)) (np_sqrt (Fin (quad_form w C)))).
Proof.
  intros (Hmu & Hcov & Hrf) Hlen [HC Hrows].
  unfold portfolio_stats. rewrite Hmu, Hcov, Hrf. simpl.
  unfold series_mul. rewrite !length_map, Hlen, Nat.eqb_refl. simpl.
  rewrite map2_np_mul_fin, series_sum_fin.
  rewrite (np_dot_mv_fin C w Hrows). simpl.
  rewrite np_dot_fin by (now rewrite length_map).
  simpl. fold (dot mu w). rewrite (dot_comm mu w).
  unfold quad_form. rewrite <- dot_matvec_quad_form.
  repeat f_equal.
Qed.

Lemma dot_indicator (t : nat) (v : list R) :
  forall s,
    dot (map (fun i => if Nat.eqb i t then 1 else 0) (seq s (length v))) v
    = if (Nat.leb s t && Nat.ltb t (s + length v))%bool
      then nth (t - s) v 0 else 0.
Proof.
  unfold dot.
  induction v as [| a v IH]; intros s; simpl.
  - destruct (Nat.leb s t && Nat.ltb t (s + 0))%bool eqn:E; [| reflexivity].
    apply andb_prop in E as [E1 E2].
    apply Nat.leb_le in E1. apply Nat.ltb_lt in E2. lia.
  - rewrite IH.
    destruct (Nat.eqb_spec s t) as [-> | Hne].
    + replace (Nat.leb (S t) t) with false by (symmetry; apply Nat.leb_gt; lia).
      replace (Nat.leb t t) with true by (symmetry; apply Nat.leb_le; lia).
      replace (Nat.ltb t (t + S (length v))) with true
        by (symmetry; apply Nat.ltb_lt; lia).
      rewrite Nat.sub_diag. simpl. lra.
    + replace (s + S (length v))%nat with (S s + length v)%nat by lia.
      destruct (Nat.leb_spec (S s) t) as [Hle | Hgt].
      * replace (Nat.leb s t) with true by (symmetry; apply Nat.leb_le; lia).
        simpl andb.
        destruct (Nat.ltb t (S (s + length v))).
        -- replace (t - s)%nat with (S (t - S s)) by lia. simpl. lra.
        -- lra.
      * replace (Nat.leb s t) with false by (symmetry; apply Nat.leb_gt; lia).
        simpl. lra.
Qed.

Lemma dot_unit_vector (n k : nat) (v : list R) :
  length v = n -> (k < n)%nat -> dot (unit_vector n k) v = nth k v 0.
Proof.
  intros Hlen Hk. subst n. unfold unit_vector. rewrite dot_indicator.
  simpl. replace (Nat.ltb k (length v)) with true
    by (symmetry; apply Nat.ltb_lt; lia).
  now rewrite Nat.sub_0_r.
Qed.

Lemma length_unit_vector (n k : nat) : length (unit_vector n k) = n.
Proof. unfold unit_vector. now rewrite length_map, length_seq. Qed.

Lemma quad_form_unit_vector (n k : nat) (C : list (list R)) :
  square n C -> (k < n)%nat ->
  quad_form (unit_vector n k) C = nth k (nth k C []) 0.
Proof.
  intros [HC Hrows] Hk. unfold quad_form.
  rewrite <- dot_matvec_quad_form.
  rewrite dot_unit_vector by (rewrite ?length_map; assumption).
  set (e := unit_vector n k).
  rewrite (nth_indep _ 0 ((fun row => dot row e) []))
    by (rewrite length_map; lia).
  rewrite (map_nth (fun row => dot row e) C [] k), dot_comm.
  apply dot_unit_vector; [| assumption].
  rewrite Forall_forall in Hrows. apply Hrows, nth_In. lia.
Qed.

Lemma np_sqrt_nonneg (r : R) : 0 <= r -> np_sqrt (Fin r) = Fin (sqrt r).
Proof.
  intros [Hpos | <-]; simpl.
  - now rewrite Rsign_pos.
  - now rewrite Rsign_zero.
Qed.

Lemma np_div_fin (a b : R) : b <> 0 -> np_div (Fin a) (Fin b) = Fin (a / b).
Proof.
  intros Hb. simpl. unfold Rsign.
  destruct (total_order_T b 0) as [[Hlt | Heq] | Hgt]; try reflexivity.
  contradiction.
Qed.

(** ** Portfolio metrics *)

(** C1: for every weight vector [w], normalised or not, [portfolio_stats]
    returns the return [w . mu], the volatility [sqrt (w^T C w)] and the
    Sharpe ratio [(return - rf) / volatility], all from the raw dot products.
    The first part states it in floating-point terms, the last two where the
    real-valued formulas are defined. *)
Theorem portfolio_stats_raw_dot_products (self : PortfolioOptimizer)
  (mu : list R) (C : list (list R)) (rf : R) (w : list R) :
  holds_stats self mu C rf ->
  length mu = length w ->
  square (length w) C ->
  portfolio_stats self (map Fin w)
  = Ok (Fin (dot w mu),
        np_sqrt (Fin (quad_form w C)),
        np_div (Fin (dot w mu - rf)) (np_sqrt (Fin (quad_form w C))))
  /\ (0 <= quad_form w C ->
      exists sharpe,
        portfolio_stats self (map Fin w)
        = Ok (Fin (dot w mu), Fin (sqrt (quad_form w C)), sharpe))
  /\ (0 < quad_form w C ->
      portfolio_stats self (map Fin w)
      = Ok (Fin (dot w mu),
            Fin (sqrt (quad_form w C)),
            Fin ((dot w mu - rf) / sqrt (quad_form w C)))).
Proof.
  intros Hst Hlen Hsq.
  pose proof (portfolio_stats_finite self mu C rf w Hst Hlen Hsq) as E.
  split; [exact E |]. split.
  - intros Hq. rewrite E, (np_sqrt_nonneg _ Hq). eexists. reflexivity.
  - intros Hq. rewrite E, np_sqrt_nonneg by lra.
    rewrite np_div_fin; [reflexivity |].
    pose proof (sqrt_lt_R0 _ Hq). lra.
Qed.

(** C7: with all weight on one asset, the return is that asset's mean return
    and the volatility is the square root of its diagonal covariance entry. *)
Theorem single_asset_portfolio (self : PortfolioOptimizer)
  (mu : list R) (C : list (list R)) (rf : R) (n k : nat) :
  holds_stats self mu C rf ->
  length mu = n ->
  square n C ->
  (k < n)%nat ->
  exists sharpe,
    portfolio_stats self (map Fin (unit_vector n k))
    = Ok (Fin (nth k mu 0), np_sqrt (Fin (nth k (nth k C []) 0)), sharpe)
    /\ (0 <= nth k (nth k C []) 0 ->
        portfolio_stats self (map Fin (unit_vector n k))
        = Ok (Fin (nth k mu 0), Fin (sqrt (nth k (nth k C []) 0)), sharpe)).
Proof.
  intros Hst Hlen Hsq Hk.
  assert (E := portfolio_stats_finite self mu C rf (unit_vector n k) Hst).
  rewrite length_unit_vector in E. specialize (E Hlen Hsq).
  rewrite dot_unit_vector, quad_form_unit_vector in E by assumption.
  eexists. split; [exact E |].
  intros Hd. rewrite E. now rewrite np_sqrt_nonneg.
Qed.

(** ** Statistics of a finite return series *)

Lemma Rsign_zero_eq (r : R) : r = 0 -> Rsign r = Zero.
Proof. intros ->. apply Rsign_zero. Qed.

(** Resolves the sign tests on closed real expressions. *)
Ltac rsign :=
  repeat match goal with
    | |- context [Rsign ?r] =>
        first [ rewrite (Rsign_pos r) by lra
              | rewrite (Rsign_neg r) by lra
              | rewrite (Rsign_zero_eq r) by lra ]
    end.

Lemma INR_length_pos {A : Type} (l : list A) : l <> [] -> 0 < INR (length l).
Proof.
  intros H. destruct l as [| a l]; [contradiction |].
  apply lt_0_INR. simpl. lia.
Qed.

Lemma nth_map_fin (j : nat) (r : list R) :
  (j < length r)%nat -> nth j (map Fin r) NaN = Fin (nth j r 0).
Proof.
  intros H. rewrite (nth_indep _ NaN (Fin 0)) by (now rewrite length_map).
  apply map_nth.
Qed.

Lemma column_fin (k j : nat) (X : list (list R)) :
  Forall (fun r => length r = k) X -> (j < k)%nat ->
  column j (map (map Fin) X) = map Fin (rcolumn j X).
Proof.
  intros HX Hj. unfold column, rcolumn. rewrite !map_map.
  apply map_ext_in. intros r Hr. apply nth_map_fin.
  rewrite Forall_forall in HX. rewrite (HX r Hr). exact Hj.
Qed.

Lemma column_values_fin (cols : list string) (X : list (list R)) :
  Forall (fun r => length r = length cols) X ->
  column_values (mkDataFrame cols (map (map Fin) X))
  = map (map Fin) (rcolumns (length cols) X).
Proof.
  intros HX. unfold column_values, rcolumns. simpl. rewrite map_map.
  apply map_ext_in. intros j Hj. apply in_seq in Hj.
  apply (column_fin (length cols)); [assumption | lia].
Qed.

Lemma length_rcolumn (j : nat) (X : list (list R)) :
  length (rcolumn j X) = length X.
Proof. unfold rcolumn. apply length_map. Qed.

Lemma nanmean_fin (xs : list R) :
  xs <> [] -> nanmean (map Fin xs) = Fin (sample_mean xs).
Proof.
  intros H. unfold nanmean. rewrite filter_notna_fin, length_map.
  destruct xs as [| a xs]; [contradiction |].
  cbv zeta. change (match length (a :: xs) with O => NaN | S _ => ?v end) with v.
  rewrite np_sum_fin. apply np_div_fin.
  pose proof (INR_length_pos (a :: xs) H). lra.
Qed.

Lemma np_mean_fin (xs : list R) :
  xs <> [] -> np_mean (map Fin xs) = Fin (sample_mean xs).
Proof.
  intros H. unfold np_mean. rewrite np_sum_fin, length_map.
  apply np_div_fin. pose proof (INR_length_pos xs H). lra.
Qed.

Lemma deviations_fin (xs : list R) :
  xs <> [] ->
  deviations (map Fin xs) = map Fin (map (fun a => a - sample_mean xs) xs).
Proof.
  intros H. unfold deviations. rewrite (np_mean_fin xs H), !map_map.
  apply map_ext. intros a. reflexivity.
Qed.

Lemma map2_map {A B A' B' C : Type} (f : A -> A') (g : B -> B')
  (h : A' -> B' -> C) (l : list A) :
  forall m, map2 h (map f l) (map g m) = map2 (fun a b => h (f a) (g b)) l m.
Proof.
  induction l as [| a l IH]; intros [| b m]; simpl; try reflexivity.
  now rewrite IH.
Qed.

Lemma cov_fact_inv (nobs : nat) :
  (2 <= nobs)%nat ->
  np_div (Fin 1) (cov_fact nobs) = Fin (1 / (INR nobs - 1)).
Proof.
  intros H. unfold cov_fact.
  replace (Nat.leb nobs 1) with false by (symmetry; apply Nat.leb_gt; lia).
  apply np_div_fin.
  apply le_INR in H. simpl in H. lra.
Qed.

(** One entry of [np.cov] on two finite columns of [nobs >= 2] values. *)
Lemma cov_entry_fin (xs ys : list R) :
  (2 <= length xs)%nat -> length ys = length xs ->
  np_mul (np_sum (map2 np_mul (deviations (map Fin xs)) (deviations (map Fin ys))))
         (np_div (Fin 1) (cov_fact (length xs)))
  = Fin (sample_cov xs ys).
Proof.
  intros Hx Hy.
  assert (xs <> []) by (destruct xs; [simpl in Hx; lia | discriminate]).
  assert (ys <> []) by (destruct ys; [simpl in Hy; lia | discriminate]).
  rewrite !deviations_fin, map2_np_mul_fin, np_sum_fin, cov_fact_inv by assumption.
  simpl. f_equal. unfold sample_cov. rewrite map2_map.
  unfold Rdiv. rewrite Rmult_1_l. reflexivity.
Qed.

Lemma np_cov_fin (X : list (list R)) (nobs : nat) :
  (2 <= nobs)%nat ->
  Forall (fun xs => length xs = nobs) X ->
  np_cov nobs (map (map Fin) X)
  = map (map Fin) (map (fun xs => map (fun ys => sample_cov xs ys) X) X).
Proof.
  intros Hn HX. unfold np_cov. rewrite !map_map.
  apply map_ext_in. intros xs Hxs. rewrite !map_map.
  apply map_ext_in. intros ys Hys.
  rewrite Forall_forall in HX.
  pose proof (HX xs Hxs) as Lx. pose proof (HX ys Hys) as Ly.
  rewrite <- Lx. apply cov_entry_fin; lia.
Qed.

Lemma df_mean_fin (cols : list string) (X : list (list R)) :
  X <> [] ->
  Forall (fun r => length r = length cols) X ->
  df_mean (mkDataFrame cols (map (map Fin) X))
  = map Fin (map sample_mean (rcolumns (length cols) X)).
Proof.
  intros HX Hrows. unfold df_mean. rewrite column_values_fin by assumption.
  rewrite !map_map. apply map_ext_in. intros xs Hxs.
  apply nanmean_fin. unfold rcolumns in Hxs. apply in_map_iff in Hxs.
  destruct Hxs as (j & <- & _). destruct X; [contradiction | discriminate].
Qed.

Lemma df_cov_fin (cols : list string) (X : list (list R)) :
  (2 <= length X)%nat ->
  Forall (fun r => length r = length cols) X ->
  df_cov (mkDataFrame cols (map (map Fin) X))
  = map (map Fin)
        (map (fun xs => map (fun ys => sample_cov xs ys) (rcolumns (length cols) X))
             (rcolumns (length cols) X)).
Proof.
  intros HX Hrows. unfold df_cov. rewrite column_values_fin by assumption.
  simpl rows. rewrite length_map. apply np_cov_fin; [assumption |].
  apply Forall_forall. intros xs Hxs. unfold rcolumns in Hxs.
  apply in_map_iff in Hxs. destruct Hxs as (j & <- & _). apply length_rcolumn.
Qed.

Lemma series_scale_fin (xs : list R) (c : R) :
  series_scale (map Fin xs) c = map Fin (map (fun a => a * c) xs).
Proof. unfold series_scale. rewrite !map_map. reflexivity. Qed.

Lemma matrix_scale_fin (M : list (list R)) (c : R) :
  matrix_scale (map (map Fin) M) c
  = map (map Fin) (map (map (fun a => a * c)) M).
Proof.
  unfold matrix_scale. rewrite !map_map. apply map_ext. intros row.
  apply series_scale_fin.
Qed.

Lemma fetch_data_frame (download : list string -> string -> string -> downloaded)
  (self : PortfolioOptimizer) (data : DataFrame) :
  as_frame (download (symbols self) (start_date self) (end_date self))
           (symbols self) = Ok data ->
  fetch_data download self
  = Ok (mkPortfolioOptimizer
          (symbols self) (start_date self) (end_date self) (risk_free_rate self)
          (Some (dropna (pct_change data)))
          (Some (series_scale (df_mean (dropna (pct_change data))) 252))
          (Some (matrix_scale (df_cov (dropna (pct_change data))) 252))).
Proof.
  intros Hdata. unfold fetch_data. rewrite Hdata. reflexivity.
Qed.

(** C6: [fetch_data] annualises with the constant 252: every mean return is
    the per-period sample mean times 252 and every covariance entry is the
    per-period sample covariance times 252.  The function has no other input
    than the series, so the factor does not depend on its periodicity. *)
Theorem annualization_by_252 (download : list string -> string -> string -> downloaded)
  (self : PortfolioOptimizer) (data : DataFrame)
  (cols : list string) (X : list (list R)) :
  as_frame (download (symbols self) (start_date self) (end_date self))
           (symbols self) = Ok data ->
  dropna (pct_change data) = mkDataFrame cols (map (map Fin) X) ->
  Forall (fun r => length r = length cols) X ->
  (2 <= length X)%nat ->
  exists self',
    fetch_data download self = Ok self'
    /\ mean_returns self'
       = Some (map Fin (map (fun xs => sample_mean xs * 252)
                            (rcolumns (length cols) X)))
    /\ cov_matrix self'
       = Some (map (map Fin)
                 (map (fun xs => map (fun ys => sample_cov xs ys * 252)
                                     (rcolumns (length cols) X))
                      (rcolumns (length cols) X))).
Proof.
  intros Hdata Hrets Hrows HX.
  unfold fetch_data. rewrite Hdata. simpl. rewrite Hrets.
  eexists. split; [reflexivity |]. simpl.
  assert (X <> []) by (destruct X; [simpl in HX; lia | discriminate]).
  rewrite df_mean_fin, df_cov_fin by assumption.
  rewrite series_scale_fin, matrix_scale_fin, !map_map.
  split; [reflexivity |].
  f_equal. apply map_ext. intros xs. now rewrite !map_map.
Qed.

(** ** Fewer than two periods *)

Lemma zero_or_nan_mul (u v : float64) :
  zero_or_nan u -> zero_or_nan v -> zero_or_nan (np_mul u v).
Proof.
  intros [-> | ->] [-> | ->]; simpl; try (now left).
  right. f_equal. lra.
Qed.

Lemma zero_or_nan_times_inf (u : float64) : zero_or_nan u -> np_mul u PInf = NaN.
Proof.
  intros [-> | ->]; simpl; [reflexivity |]. now rewrite Rsign_zero.
Qed.

Lemma deviation_single (a : float64) : zero_or_nan (np_sub a (np_mean [a])).
Proof.
  unfold np_mean, np_sum. simpl.
  destruct a as [r | | |]; simpl; rsign; simpl; try (now left).
  right. f_equal. field.
Qed.

Lemma cov_fact_few (nobs : nat) :
  (nobs < 2)%nat -> np_div (Fin 1) (cov_fact nobs) = PInf.
Proof.
  intros H. unfold cov_fact.
  replace (Nat.leb nobs 1) with true by (symmetry; apply Nat.leb_le; lia).
  simpl. now rsign.
Qed.

Lemma cov_entry_few (xs ys : list float64) :
  (length xs < 2)%nat -> length ys = length xs ->
  np_mul (np_sum (map2 np_mul (deviations xs) (deviations ys))) PInf = NaN.
Proof.
  intros Hx Hy. apply zero_or_nan_times_inf.
  destruct xs as [| a [| a' xs]]; [| | simpl in Hx; lia].
  - right. reflexivity.
  - destruct ys as [| b [| b' ys]]; try discriminate.
    unfold deviations, np_sum. simpl map. simpl map2. simpl fold_left.
    pose proof (zero_or_nan_mul _ _ (deviation_single a) (deviation_single b)) as [E | E];
      rewrite E; [now left | right; simpl; f_equal; lra].
Qed.

Lemma map_const {A B : Type} (f : A -> B) (c : B) (l : list A) :
  (forall a, In a l -> f a = c) -> map f l = repeat c (length l).
Proof.
  induction l as [| a l IH]; intros H; simpl; [reflexivity |].
  rewrite (H a) by (now left). f_equal. apply IH. intros b Hb. apply H. now right.
Qed.

Lemma np_cov_few (nobs : nat) (X : list (list float64)) :
  (nobs < 2)%nat ->
  Forall (fun xs => length xs = nobs) X ->
  np_cov nobs X = repeat (repeat NaN (length X)) (length X).
Proof.
  intros Hn HX. unfold np_cov. rewrite (cov_fact_few nobs Hn).
  rewrite Forall_forall in HX.
  set (D := map deviations X).
  replace (length X) with (length D) by apply length_map.
  apply map_const. intros di Hdi. apply map_const. intros dj Hdj.
  apply in_map_iff in Hdi as (xs & <- & Hxs).
  apply in_map_iff in Hdj as (ys & <- & Hys).
  apply cov_entry_few; rewrite ?(HX xs Hxs), ?(HX ys Hys); auto.
Qed.

Lemma length_column_values (df : DataFrame) :
  length (column_values df) = length (columns df).
Proof. unfold column_values. now rewrite length_map, length_seq. Qed.

Lemma df_cov_few (df : DataFrame) :
  (length (rows df) < 2)%nat ->
  df_cov df = repeat (repeat NaN (length (columns df))) (length (columns df)).
Proof.
  intros H. unfold df_cov. rewrite <- (length_column_values df).
  apply np_cov_few; [assumption |].
  apply Forall_forall. intros xs Hxs. unfold column_values in Hxs.
  apply in_map_iff in Hxs as (j & <- & _). apply length_map.
Qed.

Lemma matrix_scale_nan (k : nat) (c : R) :
  matrix_scale (repeat (repeat NaN k) k) c = repeat (repeat NaN k) k.
Proof.
  unfold matrix_scale, series_scale. rewrite map_repeat. f_equal.
  now rewrite map_repeat.
Qed.

Lemma df_mean_no_rows (df : DataFrame) :
  rows df = [] -> df_mean df = repeat NaN (length (columns df)).
Proof.
  intros H. unfold df_mean. rewrite <- (length_column_values df).
  apply map_const. intros xs Hxs. unfold column_values in Hxs.
  apply in_map_iff in Hxs as (j & <- & _). now rewrite H.
Qed.

Lemma fetch_data_few_rows (download : list string -> string -> string -> downloaded)
  (self : PortfolioOptimizer) (data : DataFrame) :
  as_frame (download (symbols self) (start_date self) (end_date self))
           (symbols self) = Ok data ->
  (length (rows (dropna (pct_change data))) < 2)%nat ->
  exists self',
    fetch_data download self = Ok self'
    /\ returns self' = Some (dropna (pct_change data))
    /\ cov_matrix self'
       = Some (repeat (repeat NaN (length (columns data))) (length (columns data)))
    /\ (rows (dropna (pct_change data)) = [] ->
        mean_returns self' = Some (repeat NaN (length (columns data)))).
Proof.
  intros Hdata Hfew. unfold fetch_data. rewrite Hdata. simpl bind.
  eexists. split; [reflexivity |]. cbn [returns cov_matrix mean_returns].
  split; [reflexivity |]. split.
  - rewrite (df_cov_few _ Hfew). cbn [columns dropna pct_change].
    now rewrite matrix_scale_nan.
  - intros Hnone. rewrite (df_mean_no_rows _ Hnone). cbn [columns dropna pct_change].
    unfold series_scale. now rewrite map_repeat.
Qed.

(** C4 as amended: with fewer than two usable periods [fetch_data] raises
    nothing; it stores the cleaned series and a covariance matrix whose
    entries are all NaN (and NaN means when no period is left). *)
Theorem too_few_periods_give_nan_statistics
  (download : list string -> string -> string -> downloaded)
  (self : PortfolioOptimizer) (data : DataFrame) :
  as_frame (download (symbols self) (start_date self) (end_date self))
           (symbols self) = Ok data ->
  (length (rows (dropna (pct_change data))) < 2)%nat ->
  exists self',
    fetch_data download self = Ok self'
    /\ returns self' = Some (dropna (pct_change data))
    /\ cov_matrix self'
       = Some (repeat (repeat NaN (length (columns data))) (length (columns data)))
    /\ (rows (dropna (pct_change data)) = [] ->
        mean_returns self' = Some (repeat NaN (length (columns data)))).
Proof. exact (fetch_data_few_rows download self data). Qed.

Lemma two_prices_returns :
  dropna (pct_change two_prices)
  = mkDataFrame ["A"%string] [[Fin (110 / 100 + - (1))]].
Proof.
  unfold dropna, pct_change, two_prices. simpl. rsign. simpl. reflexivity.
Qed.

(** C4 fails on a series with a single period: no error is raised and the
    covariance is NaN. *)
Lemma single_period_counterexample :
  length (rows (dropna (pct_change two_prices))) = 1%nat
  /\ (forall e, fetch_data download_two_prices one_ticker <> Raise e)
  /\ exists self',
       fetch_data download_two_prices one_ticker = Ok self'
       /\ cov_matrix self' = Some [[NaN]].
Proof.
  assert (Hdata : as_frame (download_two_prices (symbols one_ticker)
                              (start_date one_ticker) (end_date one_ticker))
                           (symbols one_ticker) = Ok two_prices) by reflexivity.
  assert (Hlen : length (rows (dropna (pct_change two_prices))) = 1%nat)
    by (now rewrite two_prices_returns).
  destruct (fetch_data_few_rows download_two_prices one_ticker two_prices Hdata)
    as (self' & Hrun & _ & Hcov & _); [rewrite Hlen; lia |].
  split; [exact Hlen |]. split.
  - intros e He. rewrite Hrun in He. discriminate.
  - exists self'. split; [exact Hrun | exact Hcov].
Qed.

(** ** A worked run on two assets *)

(** Closes equations between structures whose finite entries are equal as
    real numbers. *)
Ltac fin_eq :=
  repeat (f_equal; try first [lra | field]).

Lemma two_asset_pct_change :
  dropna (pct_change two_asset_prices)
  = mkDataFrame ["A"%string; "B"%string] (map (map Fin) two_asset_returns).
Proof.
  unfold dropna, pct_change, two_asset_prices, two_asset_returns.
  simpl. rsign. simpl. fin_eq.
Qed.

Lemma fetch_two_assets :
  fetch_data download_two_assets two_assets = Ok two_assets_fetched.
Proof.
  rewrite (fetch_data_frame _ _ two_asset_prices) by reflexivity.
  rewrite two_asset_pct_change.
  rewrite df_mean_fin, df_cov_fin;
    [ | simpl; lia | repeat constructor | discriminate | repeat constructor ].
  rewrite series_scale_fin, matrix_scale_fin.
  unfold two_assets_fetched, two_asset_means, two_asset_cov.
  unfold rcolumns, rcolumn, sample_cov, sample_mean, two_asset_returns, Rsum.
  simpl. fin_eq.
Qed.

Lemma two_assets_hold_stats :
  holds_stats two_assets_fetched two_asset_means two_asset_cov (1 / 50).
Proof. repeat split. Qed.

(** ** Zero volatility *)





(** ** The two objectives *)

Lemma np_le_neg (a b : float64) : np_le (np_neg a) (np_neg b) <-> np_le b a.
Proof.
  destruct a, b; simpl; try tauto. split; intros; lra.
Qed.

Lemma negative_sharpe_of (self : PortfolioOptimizer) (w : ndarray) :
  negative_sharpe self w = (s <- sharpe_of self w ;; Ok (np_neg s)).
Proof.
  unfold negative_sharpe, sharpe_of.
  destruct (portfolio_stats self w); reflexivity.
Qed.

Lemma minimizes_negated (self : PortfolioOptimizer)
  (feasible : ndarray -> Prop) (w : ndarray) :
  minimizes (negative_sharpe self) feasible w
  <-> maximizes (sharpe_of self) feasible w.
Proof.
  unfold minimizes, maximizes. split.
  - intros (Hw & v & Hv & Hmin). split; [exact Hw |].
    rewrite negative_sharpe_of in Hv.
    destruct (sharpe_of self w) as [s | e] eqn:Es; [| discriminate].
    exists s. split; [reflexivity |]. intros w' Hw'.
    destruct (Hmin w' Hw') as (v' & Hv' & Hle).
    rewrite negative_sharpe_of in Hv'.
    destruct (sharpe_of self w') as [s' | e'] eqn:Es'; [| discriminate].
    exists s'. split; [reflexivity |].
    simpl in Hv, Hv'. injection Hv as <-. injection Hv' as <-.
    now apply np_le_neg.
  - intros (Hw & s & Hs & Hmax). split; [exact Hw |].
    exists (np_neg s). rewrite negative_sharpe_of, Hs. split; [reflexivity |].
    intros w' Hw'. destruct (Hmax w' Hw') as (s' & Hs' & Hle).
    exists (np_neg s'). rewrite negative_sharpe_of, Hs'. split; [reflexivity |].
    now apply np_le_neg.
Qed.

(** C10: [negative_sharpe] is the negation of the Sharpe component of
    [portfolio_stats] and [portfolio_volatility] is its volatility component
    (an error of [portfolio_stats] is passed on), so a weight vector minimises
    the first objective over a feasible set exactly when it maximises the
    Sharpe ratio there, and minimises the second exactly when it minimises the
    volatility. *)
Theorem objectives_are_portfolio_stats_components (self : PortfolioOptimizer) :
  (forall w r v s,
      portfolio_stats self w = Ok (r, v, s) ->
      negative_sharpe self w = Ok (np_neg s)
      /\ portfolio_volatility self w = Ok v)
  /\ (forall w e,
         portfolio_stats self w = Raise e ->
         negative_sharpe self w = Raise e
         /\ portfolio_volatility self w = Raise e)
  /\ (forall feasible w,
         minimizes (negative_sharpe self) feasible w
         <-> maximizes (sharpe_of self) feasible w)
  /\ (forall feasible w,
         minimizes (portfolio_volatility self) feasible w
         <-> minimizes (volatility_of self) feasible w).
Proof.
  split; [| split; [| split]].
  - intros w r v s H. unfold negative_sharpe, portfolio_volatility.
    rewrite H. split; reflexivity.
  - intros w e H. unfold negative_sharpe, portfolio_volatility.
    rewrite H. split; reflexivity.
  - apply minimizes_negated.
  - intros feasible w. reflexivity.
Qed.

(** ** The solver's outcome *)

Lemma ensure_data_symbols
  (download : list string -> string -> string -> downloaded)
  (self self' : PortfolioOptimizer) :
  ensure_data download self = Ok self' ->
  symbols self' = symbols self
  /\ start_date self' = start_date self
  /\ end_date self' = end_date self
  /\ risk_free_rate self' = risk_free_rate self
  /\ returns self' <> None.
Proof.
  unfold ensure_data, fetch_data. intros H.
  destruct (returns self) as [df |] eqn:Er.
  - injection H as <-. rewrite Er. repeat split. discriminate.
  - destruct (as_frame _ _) as [data | e]; simpl in H; [| discriminate].
    injection H as <-. simpl. repeat split. discriminate.
Qed.

Lemma ensure_data_cached
  (download : list string -> string -> string -> downloaded)
  (self : PortfolioOptimizer) :
  returns self <> None -> ensure_data download self = Ok self.
Proof.
  unfold ensure_data. destruct (returns self); [reflexivity | contradiction].
Qed.

(** Two solvers that return the same iterates lead to the same result,
    whatever success flag, status and message they report. *)
Lemma optimize_reads_iterates_only
  (download : list string -> string -> string -> downloaded)
  (minimize minimize' :
    (ndarray -> result float64) -> ndarray -> list (float64 * float64) ->
    list constraint -> result OptimizeResult)
  (self : PortfolioOptimizer) :
  (forall f x0 bounds cons,
      iterate_of (minimize f x0 bounds cons)
      = iterate_of (minimize' f x0 bounds cons)) ->
  optimize download minimize self = optimize download minimize' self.
Proof.
  intros H. unfold optimize.
  destruct (ensure_data download self) as [self1 | e]; [| reflexivity].
  cbn [bind].
  destruct (uniform_weights (length (symbols self1))) as [w0 | e];
    [| reflexivity].
  cbn [bind].
  match goal with
  | |- bind (minimize ?f ?a ?b ?c) _ = _ =>
      pose proof (H f a b c) as H1;
      destruct (minimize f a b c) as [r1 | e1], (minimize' f a b c) as [r1' | e1'];
      simpl in H1; try discriminate;
      [injection H1 as Hx1 | injection H1 as ->; reflexivity]
  end.
  cbn [bind]. rewrite Hx1.
  match goal with
  | |- bind (minimize ?f ?a ?b ?c) _ = _ =>
      pose proof (H f a b c) as H2;
      destruct (minimize f a b c) as [r2 | e2], (minimize' f a b c) as [r2' | e2'];
      simpl in H2; try discriminate;
      [injection H2 as Hx2 | injection H2 as ->; reflexivity]
  end.
  cbn [bind]. rewrite Hx2. reflexivity.
Qed.

Lemma uniform_two : uniform_weights 2 = Ok (map Fin [1 / 2; 1 / 2]).
Proof. unfold uniform_weights. simpl. fin_eq. Qed.

Lemma two_assets_half_half :
  portfolio_stats two_assets_fetched (map Fin [1 / 2; 1 / 2])
  = Ok (Fin 189, Fin (sqrt (63 / 2)), Fin ((189 - 1 / 50) / sqrt (63 / 2))).
Proof.
  rewrite (portfolio_stats_finite _ _ _ _ _ two_assets_hold_stats);
    [ | reflexivity | split; [reflexivity | repeat constructor] ].
  replace (dot [1 / 2; 1 / 2] two_asset_means) with 189
    by (unfold dot, two_asset_means, Rsum; simpl; lra).
  replace (quad_form [1 / 2; 1 / 2] two_asset_cov) with (63 / 2)
    by (unfold quad_form, two_asset_cov, Rsum; simpl; lra).
  rewrite np_sqrt_nonneg by lra. rewrite np_div_fin; [reflexivity |].
  assert (0 < sqrt (63 / 2)) by (apply sqrt_lt_R0; lra). lra.
Qed.

(** The first [optimize] of the two-asset instance with the solver that gives
    up: the data is fetched and the starting point comes back as both
    optima. *)
Lemma optimize_two_assets_gives_up :
  optimize download_two_assets solver_gives_up two_assets
  = Ok (two_assets_fetched, half_half_results).
Proof.
  unfold optimize, ensure_data. cbn [returns two_assets init].
  rewrite fetch_two_assets. cbn [bind].
  change (length (symbols two_assets_fetched)) with 2%nat.
  rewrite uniform_two. cbn [bind solver_gives_up x].
  rewrite two_assets_half_half. cbn [bind]. reflexivity.
Qed.

(** ** Sums of repeated values *)

Lemma Rsum_repeat (c : R) (n : nat) : Rsum (repeat c n) = INR n * c.
Proof.
  induction n as [| n IH]; [simpl; lra |].
  change (Rsum (repeat c (S n))) with (c + Rsum (repeat c n)).
  rewrite IH, S_INR. lra.
Qed.

(** ** The cached statistics *)

Ltac step_binds H :=
  repeat match type of H with
    | bind ?m _ = Ok _ =>
        let E := fresh "E" in
        destruct m eqn:E; cbn [bind] in H; [| discriminate H]
    end.

Lemma optimize_inv
  (download download' : list string -> string -> string -> downloaded)
  (minimize :
    (ndarray -> result float64) -> ndarray -> list (float64 * float64) ->
    list constraint -> result OptimizeResult)
  (self self' : PortfolioOptimizer) (res : Results) :
  optimize download minimize self = Ok (self', res) ->
  ensure_data download self = Ok self'
  /\ optimize download' minimize self' = Ok (self', res).
Proof.
  intros H. unfold optimize in H.
  destruct (ensure_data download self) as [self1 | e] eqn:E;
    cbn [bind] in H; [| discriminate H].
  assert (Hc : returns self1 <> None) by (apply ensure_data_symbols in E; tauto).
  assert (Hrun : optimize download' minimize self1 = Ok (self', res)).
  { unfold optimize. rewrite (ensure_data_cached download' self1 Hc).
    cbn [bind]. exact H. }
  step_binds H. injection H as H _. subst self1.
  split; [reflexivity | exact Hrun].
Qed.

(** A successful frontier plot leaves the object with its data loaded, and
    [optimize] on that object gives the plotted optima. *)
Lemma plot_first_call_caches
  (download : list string -> string -> string -> downloaded)
  (minimize :
    (ndarray -> result float64) -> ndarray -> list (float64 * float64) ->
    list constraint -> result OptimizeResult)
  (rng_state : Type) (np_random : nat -> rng_state -> ndarray * rng_state)
  (self s : PortfolioOptimizer) (count : Z) (g g' : rng_state) (p : Plot) :
  plot_efficient_frontier download minimize rng_state np_random self count g
  = Ok (s, g', p) ->
  ensure_data download self = Ok s
  /\ returns s <> None
  /\ forall download', optimize download' minimize s = Ok (s, stars p).
Proof.
  intros H. unfold plot_efficient_frontier in H.
  destruct (ensure_data download self) as [self1 | e] eqn:E;
    cbn [bind] in H; [| discriminate H].
  assert (Hc : returns self1 <> None) by (apply ensure_data_symbols in E; tauto).
  destruct (sample_loop _ _ _ _ _ _) as [sg | e]; cbn [bind] in H;
    [| discriminate H].
  destruct (optimize download minimize self1) as [[s2 r2] | e] eqn:Eo;
    cbn [bind fst snd] in H; [| discriminate H].
  injection H as <- _ <-. cbn [stars].
  destruct (optimize_inv download download minimize self1 s2 r2 Eo) as [E1 _].
  rewrite (ensure_data_cached download self1 Hc) in E1. injection E1 as <-.
  split; [reflexivity |]. split; [exact Hc |].
  intros download'.
  now destruct (optimize_inv download download' minimize self1 self1 r2 Eo).
Qed.

(** ** Random portfolios *)

Lemma normalize_fin (d : list R) :
  0 < Rsum d ->
  normalize (map Fin d) = map Fin (map (fun a => a / Rsum d) d).
Proof.
  intros H. unfold normalize. rewrite np_sum_fin, !map_map.
  apply map_ext. intros a. apply np_div_fin. lra.
Qed.

Lemma Rsum_nonneg (d : list R) : Forall (fun a => 0 <= a) d -> 0 <= Rsum d.
Proof.
  induction 1 as [| a d Ha _ IH]; simpl; lra.
Qed.

Lemma In_le_Rsum (d : list R) (a : R) :
  Forall (fun b => 0 <= b) d -> In a d -> a <= Rsum d.
Proof.
  induction 1 as [| b d Hb Hd IH]; intros Hin; [contradiction |].
  pose proof (Rsum_nonneg d Hd). simpl.
  destruct Hin as [-> | Hin]; [lra |]. specialize (IH Hin). lra.
Qed.

Lemma np_dot_mv_total (m : matrix) (v : ndarray) :
  Forall (fun row => length row = length v) m ->
  exists r, np_dot_mv m v = Ok r /\ length r = length m.
Proof.
  unfold np_dot_mv.
  induction 1 as [| row m Hrow _ (r & Hr & Hlen)]; simpl.
  - exists []. split; reflexivity.
  - unfold np_dot at 1. rewrite Hrow, Nat.eqb_refl. cbn [bind]. rewrite Hr.
    cbn [bind]. eexists. split; [reflexivity |]. simpl. now rewrite Hlen.
Qed.

(** With statistics of the right shape [portfolio_stats] raises nothing on a
    vector of one weight per symbol, whatever its entries. *)
Lemma portfolio_stats_total (self : PortfolioOptimizer) (w : ndarray) :
  well_shaped self ->
  length w = length (symbols self) ->
  exists st, portfolio_stats self w = Ok st.
Proof.
  intros (mu & cov & Hmu & Hcov & Lmu & Lcov & Hrows) Hw.
  unfold portfolio_stats. rewrite Hmu, Hcov. cbn [attr bind].
  unfold series_mul. rewrite Lmu, Hw, Nat.eqb_refl. cbn [bind].
  destruct (np_dot_mv_total cov w) as (cw & Hcw & Lcw).
  { eapply Forall_impl; [| exact Hrows]. simpl. intros row Hr. now rewrite Hw. }
  rewrite Hcw. cbn [bind].
  unfold np_dot. rewrite Lcw, Lcov, Hw, Nat.eqb_refl. cbn [bind].
  eexists. reflexivity.
Qed.

Lemma length_normalize (w : ndarray) : length (normalize w) = length w.
Proof. unfold normalize. apply length_map. Qed.

Lemma sample_weights_fin (rng_state : Type)
  (np_random : nat -> rng_state -> ndarray * rng_state)
  (self : PortfolioOptimizer) (g : rng_state) (d : list R) :
  fst (np_random (length (symbols self)) g) = map Fin d ->
  0 < Rsum d ->
  fst (sample_weights rng_state np_random self g)
  = map Fin (map (fun a => a / Rsum d) d).
Proof.
  intros Hd Hs. unfold sample_weights.
  destruct (np_random (length (symbols self)) g) as [w g1]. simpl in *.
  subst w. now apply normalize_fin.
Qed.

Lemma single_draw_weight :
  fst (sample_weights unit draw_halves one_ticker tt) = [Fin 1].
Proof.
  unfold sample_weights, draw_halves, normalize, np_sum. simpl.
  rsign. fin_eq.
Qed.

(** C5 fails for a single asset: the one draw 1/2, divided by itself, is the
    weight 1, which is not in [0, 1). *)
Lemma single_asset_weight_counterexample :
  Forall in_half_open_unit (fst (draw_halves (length (symbols one_ticker)) tt))
  /\ fst (sample_weights unit draw_halves one_ticker tt) = [Fin 1]
  /\ ~ Forall in_half_open_unit
         (fst (sample_weights unit draw_halves one_ticker tt)).
Proof.
  split; [| split].
  - repeat constructor. exists (1 / 2). split; [reflexivity | lra].
  - exact single_draw_weight.
  - rewrite single_draw_weight. intros H.
    inversion H as [| ? ? (r & Hr & Hrange) _]; subst.
    injection Hr as <-. lra.
Qed.

(** ** The theorems at the worked example *)

Lemma portfolio_stats_raw_dot_products_witness :
  portfolio_stats two_assets_fetched (map Fin [2; 1])
  = Ok (Fin (dot [2; 1] two_asset_means),
        np_sqrt (Fin (quad_form [2; 1] two_asset_cov)),
        np_div (Fin (dot [2; 1] two_asset_means - 1 / 50))
               (np_sqrt (Fin (quad_form [2; 1] two_asset_cov))))
  /\ (0 <= quad_form [2; 1] two_asset_cov ->
      exists sharpe,
        portfolio_stats two_assets_fetched (map Fin [2; 1])
        = Ok (Fin (dot [2; 1] two_asset_means),
              Fin (sqrt (quad_form [2; 1] two_asset_cov)), sharpe))
  /\ (0 < quad_form [2; 1] two_asset_cov ->
      portfolio_stats two_assets_fetched (map Fin [2; 1])
      = Ok (Fin (dot [2; 1] two_asset_means),
            Fin (sqrt (quad_form [2; 1] two_asset_cov)),
            Fin ((dot [2; 1] two_asset_means - 1 / 50)
                 / sqrt (quad_form [2; 1] two_asset_cov)))).
Proof.
  apply (portfolio_stats_raw_dot_products
           two_assets_fetched two_asset_means two_asset_cov (1 / 50) [2; 1]).
  - repeat split.
  - reflexivity.
  - split; [reflexivity | repeat constructor].
Defined.

Lemma single_asset_portfolio_witness :
  exists sharpe,
    portfolio_stats two_assets_fetched (map Fin (unit_vector 2 1))
    = Ok (Fin (nth 1 two_asset_means 0),
          np_sqrt (Fin (nth 1 (nth 1 two_asset_cov []) 0)), sharpe)
    /\ (0 <= nth 1 (nth 1 two_asset_cov []) 0 ->
        portfolio_stats two_assets_fetched (map Fin (unit_vector 2 1))
        = Ok (Fin (nth 1 two_asset_means 0),
              Fin (sqrt (nth 1 (nth 1 two_asset_cov []) 0)), sharpe)).
Proof.
  apply (single_asset_portfolio
           two_assets_fetched two_asset_means two_asset_cov (1 / 50) 2 1).
  - repeat split.
  - reflexivity.
  - split; [reflexivity | repeat constructor].
  - lia.
Defined.

Lemma annualization_by_252_witness :
  exists self',
    fetch_data download_two_assets two_assets = Ok self'
    /\ mean_returns self'
       = Some (map Fin (map (fun xs => sample_mean xs * 252)
                            (rcolumns 2 two_asset_returns)))
    /\ cov_matrix self'
       = Some (map (map Fin)
                 (map (fun xs => map (fun ys => sample_cov xs ys * 252)
                                     (rcolumns 2 two_asset_returns))
                      (rcolumns 2 two_asset_returns))).
Proof.
  apply (annualization_by_252 download_two_assets two_assets two_asset_prices
           ["A"%string; "B"%string] two_asset_returns).
  - reflexivity.
  - exact two_asset_pct_change.
  - repeat constructor.
  - simpl. lia.
Defined.

Lemma too_few_periods_give_nan_statistics_witness :
  exists self',
    fetch_data download_two_prices one_ticker = Ok self'
    /\ returns self' = Some (dropna (pct_change two_prices))
    /\ cov_matrix self' = Some (repeat (repeat NaN 1) 1)
    /\ (rows (dropna (pct_change two_prices)) = [] ->
        mean_returns self' = Some (repeat NaN 1)).
Proof.
  apply (too_few_periods_give_nan_statistics
           download_two_prices one_ticker two_prices).
  - reflexivity.
  - rewrite two_prices_returns. simpl. lia.
Defined.


(** ** Further properties of [portfolio_stats] *)

Lemma portfolio_stats_wrong_length (self : PortfolioOptimizer) (w : ndarray) :
  well_shaped self ->
  length w <> length (symbols self) ->
  portfolio_stats self w = Raise ValueError.
Proof.
  intros (mu & cov & Hmu & Hcov & Lmu & _) Hw.
  unfold portfolio_stats. rewrite Hmu. cbn [attr bind].
  unfold series_mul. rewrite Lmu.
  replace (Nat.eqb (length (symbols self)) (length w)) with false
    by (symmetry; apply Nat.eqb_neq; congruence).
  reflexivity.
Qed.

(** X1: with statistics of the right shape, [portfolio_stats] and the two
    objectives return a value exactly on the arrays with one weight per
    symbol; on any other length all three raise ValueError. *)
Theorem portfolio_stats_defined_iff_one_weight_per_symbol
  (self : PortfolioOptimizer) (w : ndarray) :
  well_shaped self ->
  (length w = length (symbols self) ->
   exists r v s,
     portfolio_stats self w = Ok (r, v, s)
     /\ negative_sharpe self w = Ok (np_neg s)
     /\ portfolio_volatility self w = Ok v)
  /\ (length w <> length (symbols self) ->
      portfolio_stats self w = Raise ValueError
      /\ negative_sharpe self w = Raise ValueError
      /\ portfolio_volatility self w = Raise ValueError).
Proof.
  intros Hshape. split; intros Hw.
  - destruct (portfolio_stats_total self w Hshape Hw) as ([[r v] s] & Hst).
    exists r, v, s. unfold negative_sharpe, portfolio_volatility.
    rewrite Hst. repeat split.
  - pose proof (portfolio_stats_wrong_length self w Hshape Hw) as E.
    unfold negative_sharpe, portfolio_volatility. rewrite E. repeat split.
Qed.

Lemma portfolio_stats_defined_iff_one_weight_per_symbol_witness :
  (length [Fin 1] = length (symbols two_assets_fetched) ->
   exists r v s,
     portfolio_stats two_assets_fetched [Fin 1] = Ok (r, v, s)
     /\ negative_sharpe two_assets_fetched [Fin 1] = Ok (np_neg s)
     /\ portfolio_volatility two_assets_fetched [Fin 1] = Ok v)
  /\ (length [Fin 1] <> length (symbols two_assets_fetched) ->
      portfolio_stats two_assets_fetched [Fin 1] = Raise ValueError
      /\ negative_sharpe two_assets_fetched [Fin 1] = Raise ValueError
      /\ portfolio_volatility two_assets_fetched [Fin 1] = Raise ValueError).
Proof.
  apply (portfolio_stats_defined_iff_one_weight_per_symbol
           two_assets_fetched [Fin 1]).
  exists (map Fin two_asset_means), (map (map Fin) two_asset_cov).
  repeat split. repeat constructor.
Defined.

(** ** From prices to returns *)

Lemma map2_pct_fin (r : list R) :
  forall prev,
    Forall (fun p => p <> 0) prev ->
    map2 (fun p q => np_sub (np_div p q) (Fin 1)) (map Fin r) (map Fin prev)
    = map Fin (map2 (fun p q => p / q - 1) r prev).
Proof.
  induction r as [| a r IH]; intros [| b prev] Hprev; simpl; try reflexivity.
  inversion Hprev as [| ? ? Hb Hrest]; subst.
  rewrite (IH prev Hrest). f_equal.
  change (np_sub (np_div (Fin a) (Fin b)) (Fin 1) = Fin (a / b - 1)).
  now rewrite (np_div_fin a b Hb).
Qed.

Lemma pct_rows_fin (P : list (list R)) :
  forall prev,
    Forall (fun p => p <> 0) prev ->
    Forall (Forall (fun p => p <> 0)) P ->
    pct_rows (map Fin prev) (map (map Fin) P)
    = map (map Fin) (simple_rows prev P).
Proof.
  induction P as [| r P IH]; intros prev Hprev HP; simpl; [reflexivity |].
  inversion HP as [| ? ? Hr Hrest]; subst.
  rewrite (map2_pct_fin r prev Hprev), (IH r Hr Hrest). reflexivity.
Qed.

Lemma map2_pct_nan (r : list float64) :
  forall k,
    map2 (fun p q => np_sub (np_div p q) (Fin 1)) r (repeat NaN k)
    = repeat NaN (Nat.min (length r) k).
Proof.
  induction r as [| a r IH]; intros [| k]; simpl; try reflexivity.
  rewrite IH. f_equal. destruct a; reflexivity.
Qed.

Lemma first_pct_row_dropped (r : list float64) (k : nat) :
  length r = k -> k <> 0%nat ->
  forallb notna
    (map2 (fun p q => np_sub (np_div p q) (Fin 1)) r (repeat NaN k)) = false.
Proof.
  intros Hr Hk. rewrite map2_pct_nan, Hr, Nat.min_id.
  destruct k; [contradiction | reflexivity].
Qed.

Lemma length_pct_rows (rs : list (list float64)) :
  forall prev, length (pct_rows prev rs) = length rs.
Proof.
  induction rs as [| r rs IH]; intros prev; simpl; [reflexivity |].
  now rewrite IH.
Qed.

Lemma filter_notna_rows_fin (X : list (list R)) :
  filter (forallb notna) (map (map Fin) X) = map (map Fin) X.
Proof.
  induction X as [| r X IH]; simpl; [reflexivity |].
  replace (forallb notna (map Fin r)) with true; [now rewrite IH |].
  symmetry. apply forallb_forall. intros v Hv.
  apply in_map_iff in Hv as (a & <- & _). reflexivity.
Qed.

Lemma length_simple_rows (P : list (list R)) :
  forall prev, length (simple_rows prev P) = length P.
Proof.
  induction P as [| r P IH]; intros prev; simpl; [reflexivity |].
  now rewrite IH.
Qed.

(** X4: on a table of finite non-zero prices with at least one column,
    [pct_change] followed by [dropna] yields exactly the simple returns
    [p_t / p_(t-1) - 1] of every row but the first, so one row fewer than
    there are price rows. *)
Theorem returns_are_simple_returns (cols : list string) (P : list (list R)) :
  cols <> [] ->
  Forall (fun r => length r = length cols) P ->
  Forall (Forall (fun p => p <> 0)) P ->
  dropna (pct_change (mkDataFrame cols (map (map Fin) P)))
  = mkDataFrame cols (map (map Fin) (simple_returns P))
  /\ length (simple_returns P) = (length P - 1)%nat.
Proof.
  intros Hcols Hlen Hnz. unfold dropna, pct_change. cbn [columns rows].
  destruct P as [| p0 rest]; [split; reflexivity |].
  inversion Hlen as [| ? ? Hp0 _]; subst.
  inversion Hnz as [| ? ? Hz0 Hzrest]; subst.
  cbn [map pct_rows filter simple_returns].
  rewrite first_pct_row_dropped
    by (first [ rewrite length_map; exact Hp0
              | destruct cols; [contradiction | discriminate] ]).
  rewrite (pct_rows_fin rest p0 Hz0 Hzrest), filter_notna_rows_fin.
  split; [reflexivity |]. rewrite length_simple_rows. simpl. lia.
Qed.

Lemma returns_are_simple_returns_witness :
  dropna (pct_change (mkDataFrame ["A"%string; "B"%string]
                        (map (map Fin) [[1; 1]; [2; 1]; [4; 2]])))
  = mkDataFrame ["A"%string; "B"%string]
                (map (map Fin) (simple_returns [[1; 1]; [2; 1]; [4; 2]]))
  /\ length (simple_returns [[1; 1]; [2; 1]; [4; 2]]) = (3 - 1)%nat.
Proof.
  apply (returns_are_simple_returns ["A"%string; "B"%string]
           [[1; 1]; [2; 1]; [4; 2]]).
  - discriminate.
  - repeat constructor.
  - repeat constructor; lra.
Defined.

Lemma dropna_pct_change_length (df : DataFrame) :
  columns df <> [] ->
  Forall (fun r => length r = length (columns df)) (rows df) ->
  (length (rows (dropna (pct_change df))) <= length (rows df) - 1)%nat.
Proof.
  intros Hcols Hlen. unfold dropna, pct_change. cbn [columns rows].
  destruct (rows df) as [| r rs]; [simpl; lia |].
  inversion Hlen as [| ? ? Hr _]; subst.
  cbn [pct_rows filter].
  rewrite first_pct_row_dropped
    by (first [ exact Hr
              | destruct (columns df); [contradiction | discriminate] ]).
  pose proof (filter_length_le (forallb notna) (pct_rows r rs)) as H.
  rewrite length_pct_rows in H. simpl. lia.
Qed.

(** X5: [n] price rows give at most [n - 1] returns, whatever the prices, so
    a download of at most two price rows leaves fewer than two periods:
    [fetch_data] returns normally and every covariance entry is NaN. *)
Theorem two_price_rows_give_nan_covariance
  (download : list string -> string -> string -> downloaded)
  (self : PortfolioOptimizer) (data : DataFrame) :
  as_frame (download (symbols self) (start_date self) (end_date self))
           (symbols self) = Ok data ->
  columns data <> [] ->
  Forall (fun r => length r = length (columns data)) (rows data) ->
  (length (rows data) <= 2)%nat ->
  (length (rows (dropna (pct_change data))) <= length (rows data) - 1)%nat
  /\ exists self',
       fetch_data download self = Ok self'
       /\ cov_matrix self'
          = Some (repeat (repeat NaN (length (columns data)))
                         (length (columns data))).
Proof.
  intros Hdata Hcols Hlen Hfew.
  pose proof (dropna_pct_change_length data Hcols Hlen) as Hle.
  split; [exact Hle |].
  destruct (fetch_data_few_rows download self data Hdata)
    as (self' & Hrun & _ & Hcov & _); [lia |].
  exists self'. split; assumption.
Qed.

Lemma two_price_rows_give_nan_covariance_witness :
  (length (rows (dropna (pct_change two_prices)))
   <= length (rows two_prices) - 1)%nat
  /\ exists self',
       fetch_data download_two_prices one_ticker = Ok self'
       /\ cov_matrix self'
          = Some (repeat (repeat NaN (length (columns two_prices)))
                         (length (columns two_prices))).
Proof.
  apply (two_price_rows_give_nan_covariance
           download_two_prices one_ticker two_prices).
  - reflexivity.
  - discriminate.
  - repeat constructor.
  - simpl. lia.
Defined.

(** ** What [fetch_data] leaves in the object *)

Lemma length_df_mean (df : DataFrame) :
  length (df_mean df) = length (columns df).
Proof. unfold df_mean. rewrite length_map. apply length_column_values. Qed.

Lemma np_cov_shape (nobs : nat) (X : list (list float64)) :
  length (np_cov nobs X) = length X
  /\ Forall (fun row => length row = length X) (np_cov nobs X).
Proof.
  unfold np_cov. split.
  - now rewrite !length_map.
  - apply Forall_forall. intros row Hrow.
    apply in_map_iff in Hrow as (di & <- & _). now rewrite !length_map.
Qed.

Lemma df_cov_shape (df : DataFrame) :
  length (df_cov df) = length (columns df)
  /\ Forall (fun row => length row = length (columns df)) (df_cov df).
Proof.
  unfold df_cov. rewrite <- (length_column_values df). apply np_cov_shape.
Qed.

Lemma length_series_scale (s : Series) (c : R) :
  length (series_scale s c) = length s.
Proof. unfold series_scale. apply length_map. Qed.

Lemma matrix_scale_shape (m : matrix) (c : R) (k : nat) :
  length m = k -> Forall (fun row => length row = k) m ->
  length (matrix_scale m c) = k
  /\ Forall (fun row => length row = k) (matrix_scale m c).
Proof.
  intros Hm Hrows. unfold matrix_scale. split.
  - now rewrite length_map.
  - apply Forall_forall. intros row Hrow.
    apply in_map_iff in Hrow as (r & <- & Hr).
    rewrite length_series_scale. rewrite Forall_forall in Hrows. now apply Hrows.
Qed.

Lemma dropna_no_missing (df : DataFrame) :
  Forall (fun r => forallb notna r = true) (rows (dropna df)).
Proof.
  unfold dropna. cbn [rows]. apply Forall_forall. intros r Hr.
  now apply filter_In in Hr.
Qed.

Lemma fetch_data_inv
  (download : list string -> string -> string -> downloaded)
  (self self' : PortfolioOptimizer) :
  fetch_data download self = Ok self' ->
  exists data,
    as_frame (download (symbols self) (start_date self) (end_date self))
             (symbols self) = Ok data
    /\ self' = mkPortfolioOptimizer
                 (symbols self) (start_date self) (end_date self)
                 (risk_free_rate self)
                 (Some (dropna (pct_change data)))
                 (Some (series_scale (df_mean (dropna (pct_change data))) 252))
                 (Some (matrix_scale (df_cov (dropna (pct_change data))) 252)).
Proof.
  unfold fetch_data. intros H.
  destruct (as_frame _ _) as [data | e]; cbn [bind] in H; [| discriminate H].
  exists data. split; [reflexivity |]. now injection H.
Qed.

(** X6: a successful [fetch_data] keeps the symbols, the dates and the
    risk-free rate, and fills all three attributes: a return series without
    missing values, one mean per column of that series and a square
    covariance matrix of the same size.  When the download has one column
    per symbol, [portfolio_stats] is then defined on every array with one
    weight per symbol. *)
Theorem fetch_data_fills_consistent_statistics
  (download : list string -> string -> string -> downloaded)
  (self self' : PortfolioOptimizer) :
  fetch_data download self = Ok self' ->
  symbols self' = symbols self
  /\ start_date self' = start_date self
  /\ end_date self' = end_date self
  /\ risk_free_rate self' = risk_free_rate self
  /\ exists rets mu cov,
       returns self' = Some rets
       /\ mean_returns self' = Some mu
       /\ cov_matrix self' = Some cov
       /\ Forall (fun r => forallb notna r = true) (rows rets)
       /\ length mu = length (columns rets)
       /\ length cov = length (columns rets)
       /\ Forall (fun row => length row = length (columns rets)) cov
       /\ (length (columns rets) = length (symbols self) ->
           forall w, length w = length (symbols self) ->
                     exists st, portfolio_stats self' w = Ok st).
Proof.
  intros H. destruct (fetch_data_inv download self self' H) as (data & _ & ->).
  cbn [symbols start_date end_date risk_free_rate returns mean_returns cov_matrix].
  repeat (split; [reflexivity |]).
  set (rets := dropna (pct_change data)).
  destruct (df_cov_shape rets) as [Lc Rc].
  destruct (matrix_scale_shape (df_cov rets) 252 _ Lc Rc) as [Lm Rm].
  exists rets, (series_scale (df_mean rets) 252), (matrix_scale (df_cov rets) 252).
  repeat (split; [reflexivity |]).
  split; [apply dropna_no_missing |].
  split; [now rewrite length_series_scale, length_df_mean |].
  split; [exact Lm |]. split; [exact Rm |].
  intros Hk w Hw. apply portfolio_stats_total; [| exact Hw].
  exists (series_scale (df_mean rets) 252), (matrix_scale (df_cov rets) 252).
  cbn [symbols mean_returns cov_matrix]. rewrite <- Hk.
  repeat split; try assumption.
  now rewrite length_series_scale, length_df_mean.
Qed.

Lemma fetch_data_fills_consistent_statistics_witness :
  symbols two_assets_fetched = symbols two_assets
  /\ start_date two_assets_fetched = start_date two_assets
  /\ end_date two_assets_fetched = end_date two_assets
  /\ risk_free_rate two_assets_fetched = risk_free_rate two_assets
  /\ exists rets mu cov,
       returns two_assets_fetched = Some rets
       /\ mean_returns two_assets_fetched = Some mu
       /\ cov_matrix two_assets_fetched = Some cov
       /\ Forall (fun r => forallb notna r = true) (rows rets)
       /\ length mu = length (columns rets)
       /\ length cov = length (columns rets)
       /\ Forall (fun row => length row = length (columns rets)) cov
       /\ (length (columns rets) = length (symbols two_assets) ->
           forall w, length w = length (symbols two_assets) ->
                     exists st, portfolio_stats two_assets_fetched w = Ok st).
Proof.
  apply (fetch_data_fills_consistent_statistics
           download_two_assets two_assets two_assets_fetched).
  exact fetch_two_assets.
Defined.

(** X7: a single ticker that is downloaded as a Series is handled as a table
    with the one column named after the first symbol: one mean return and a
    1 x 1 covariance matrix are stored. *)
Theorem series_download_is_one_column
  (download : list string -> string -> string -> downloaded)
  (self : PortfolioOptimizer) (s : Series) (name : string) (rest : list string) :
  download (symbols self) (start_date self) (end_date self) = PdSeries s ->
  symbols self = name :: rest ->
  exists self' rets m c,
    fetch_data download self = Ok self'
    /\ returns self' = Some rets
    /\ columns rets = [name]
    /\ mean_returns self' = Some [m]
    /\ cov_matrix self' = Some [[c]].
Proof.
  intros Hd Hs.
  assert (Hdata : as_frame (download (symbols self) (start_date self)
                              (end_date self)) (symbols self)
                  = Ok (to_frame s name))
    by (rewrite Hd, Hs; reflexivity).
  rewrite (fetch_data_frame download self _ Hdata).
  do 4 eexists. split; [reflexivity |].
  cbn [returns mean_returns cov_matrix]. split; [reflexivity |].
  split; [reflexivity |]. split; reflexivity.
Qed.

Lemma series_download_is_one_column_witness :
  exists self' rets m c,
    fetch_data download_series one_ticker = Ok self'
    /\ returns self' = Some rets
    /\ columns rets = ["A"%string]
    /\ mean_returns self' = Some [m]
    /\ cov_matrix self' = Some [[c]].
Proof.
  apply (series_download_is_one_column download_series one_ticker
           [Fin 1; Fin 2; Fin 4] "A"%string []).
  - reflexivity.
  - reflexivity.
Defined.

(** ** The covariance matrix of a finite return series *)

Lemma fetch_data_finite
  (download : list string -> string -> string -> downloaded)
  (self : PortfolioOptimizer) (data : DataFrame)
  (cols : list string) (X : list (list R)) :
  as_frame (download (symbols self) (start_date self) (end_date self))
           (symbols self) = Ok data ->
  dropna (pct_change data) = mkDataFrame cols (map (map Fin) X) ->
  Forall (fun r => length r = length cols) X ->
  (2 <= length X)%nat ->
  fetch_data download self
  = Ok (mkPortfolioOptimizer
          (symbols self) (start_date self) (end_date self) (risk_free_rate self)
          (Some (mkDataFrame cols (map (map Fin) X)))
          (Some (map Fin (annual_mean (length cols) X)))
          (Some (map (map Fin) (annual_cov (length cols) X)))).
Proof.
  intros Hdata Hrets Hrows HX.
  rewrite (fetch_data_frame download self data Hdata), Hrets.
  assert (X <> []) by (destruct X; [simpl in HX; lia | discriminate]).
  rewrite df_mean_fin, df_cov_fin by assumption.
  rewrite series_scale_fin, matrix_scale_fin.
  unfold annual_mean, annual_cov. rewrite !map_map.
  do 3 f_equal. apply map_ext. intros xs. now rewrite !map_map.
Qed.

Lemma map2_swap {A B C : Type} (f : A -> B -> C) (l : list A) :
  forall m, map2 f l m = map2 (fun b a => f a b) m l.
Proof.
  induction l as [| a l IH]; intros [| b m]; simpl; try reflexivity.
  now rewrite IH.
Qed.

Lemma map2_ext {A B C : Type} (f g : A -> B -> C) :
  (forall a b, f a b = g a b) -> forall l m, map2 f l m = map2 g l m.
Proof.
  intros H. induction l as [| a l IH]; intros [| b m]; simpl; try reflexivity.
  now rewrite H, IH.
Qed.

Lemma sample_cov_sym (xs ys : list R) :
  length xs = length ys -> sample_cov xs ys = sample_cov ys xs.
Proof.
  intros H. unfold sample_cov. rewrite H. f_equal. f_equal.
  rewrite map2_swap. apply map2_ext. intros a b. lra.
Qed.

Lemma nth_map_lt {A B : Type} (f : A -> B) (l : list A) (n : nat) (d : A) (d' : B) :
  (n < length l)%nat -> nth n (map f l) d' = f (nth n l d).
Proof.
  intros H. rewrite (nth_indep _ d' (f d)) by (now rewrite length_map).
  apply map_nth.
Qed.

Lemma length_rcolumns (k : nat) (X : list (list R)) :
  length (rcolumns k X) = k.
Proof. unfold rcolumns. now rewrite length_map, length_seq. Qed.

Lemma rcolumns_lengths (k : nat) (X : list (list R)) :
  Forall (fun xs => length xs = length X) (rcolumns k X).
Proof.
  apply Forall_forall. intros xs Hxs. unfold rcolumns in Hxs.
  apply in_map_iff in Hxs as (j & <- & _). apply length_rcolumn.
Qed.

Lemma annual_cov_entry (k : nat) (X : list (list R)) (i j : nat) :
  (i < k)%nat -> (j < k)%nat ->
  nth j (nth i (annual_cov k X) []) 0
  = sample_cov (nth i (rcolumns k X) []) (nth j (rcolumns k X) []) * 252.
Proof.
  intros Hi Hj. unfold annual_cov.
  rewrite (nth_map_lt _ (rcolumns k X) i [] [])
    by (now rewrite length_rcolumns).
  rewrite (nth_map_lt _ (rcolumns k X) j [] 0)
    by (now rewrite length_rcolumns).
  reflexivity.
Qed.

Lemma annual_cov_sym (k : nat) (X : list (list R)) (i j : nat) :
  (i < k)%nat -> (j < k)%nat ->
  nth j (nth i (annual_cov k X) []) 0 = nth i (nth j (annual_cov k X) []) 0.
Proof.
  intros Hi Hj. rewrite !annual_cov_entry by assumption.
  f_equal. apply sample_cov_sym.
  pose proof (rcolumns_lengths k X) as H. rewrite Forall_forall in H.
  rewrite (H (nth i (rcolumns k X) [])), (H (nth j (rcolumns k X) []));
    try reflexivity; apply nth_In; now rewrite length_rcolumns.
Qed.

Lemma annual_stats_shape (k : nat) (X : list (list R)) :
  length (annual_mean k X) = k /\ square k (annual_cov k X).
Proof.
  unfold annual_mean, annual_cov, square.
  rewrite !length_map, length_rcolumns. repeat split.
  apply Forall_forall. intros row Hrow.
  apply in_map_iff in Hrow as (xs & <- & _).
  now rewrite length_map, length_rcolumns.
Qed.

(** X8: on a finite return series of at least two periods the stored
    covariance matrix is symmetric. *)
Theorem covariance_matrix_is_symmetric
  (download : list string -> string -> string -> downloaded)
  (self : PortfolioOptimizer) (data : DataFrame)
  (cols : list string) (X : list (list R)) :
  as_frame (download (symbols self) (start_date self) (end_date self))
           (symbols self) = Ok data ->
  dropna (pct_change data) = mkDataFrame cols (map (map Fin) X) ->
  Forall (fun r => length r = length cols) X ->
  (2 <= length X)%nat ->
  exists self' C,
    fetch_data download self = Ok self'
    /\ cov_matrix self' = Some (map (map Fin) C)
    /\ square (length cols) C
    /\ forall i j, (i < length cols)%nat -> (j < length cols)%nat ->
                   nth j (nth i C []) 0 = nth i (nth j C []) 0.
Proof.
  intros Hdata Hrets Hrows HX.
  rewrite (fetch_data_finite download self data cols X Hdata Hrets Hrows HX).
  do 2 eexists. split; [reflexivity |]. split; [reflexivity |].
  split; [apply annual_stats_shape |].
  intros i j Hi Hj. now apply annual_cov_sym.
Qed.

Lemma covariance_matrix_is_symmetric_witness :
  exists self' C,
    fetch_data download_two_assets two_assets = Ok self'
    /\ cov_matrix self' = Some (map (map Fin) C)
    /\ square (length ["A"%string; "B"%string]) C
    /\ forall i j, (i < length ["A"%string; "B"%string])%nat ->
                   (j < length ["A"%string; "B"%string])%nat ->
                   nth j (nth i C []) 0 = nth i (nth j C []) 0.
Proof.
  apply (covariance_matrix_is_symmetric download_two_assets two_assets
           two_asset_prices ["A"%string; "B"%string] two_asset_returns).
  - reflexivity.
  - exact two_asset_pct_change.
  - repeat constructor.
  - simpl. lia.
Defined.

(** ** The weights dictionary *)

Lemma dict_get_set_same {V : Type} (k : string) (v : V) (d : dict V) :
  dict_get k (dict_set k v d) = Some v.
Proof.
  induction d as [| [k' v'] d IH]; simpl.
  - now rewrite String.eqb_refl.
  - destruct (String.eqb k k') eqn:E; simpl.
    + now rewrite String.eqb_refl.
    + now rewrite E.
Qed.

Lemma dict_get_set_other {V : Type} (k0 k : string) (v : V) (d : dict V) :
  k0 <> k -> dict_get k0 (dict_set k v d) = dict_get k0 d.
Proof.
  intros Hne. apply String.eqb_neq in Hne.
  induction d as [| [k' v'] d IH]; simpl.
  - now rewrite Hne.
  - destruct (String.eqb k k') eqn:E; simpl.
    + apply String.eqb_eq in E. subst k'. now rewrite Hne.
    + now rewrite IH.
Qed.

Lemma dict_set_keys {V : Type} (k0 k : string) (v : V) (d : dict V) :
  In k0 (map fst (dict_set k v d)) <-> k0 = k \/ In k0 (map fst d).
Proof.
  induction d as [| [k' v'] d IH]; simpl.
  - intuition.
  - destruct (String.eqb k k') eqn:E; simpl.
    + apply String.eqb_eq in E. subst k'. intuition.
    + rewrite IH. intuition.
Qed.

Lemma dict_set_nodup {V : Type} (k : string) (v : V) (d : dict V) :
  NoDup (map fst d) -> NoDup (map fst (dict_set k v d)).
Proof.
  induction d as [| [k' v'] d IH]; simpl; intros H.
  - constructor; [intros [] | constructor].
  - inversion H as [| ? ? Hnotin Hrest]; subst.
    destruct (String.eqb k k') eqn:E; simpl.
    + apply String.eqb_eq in E. subst k'. now constructor.
    + constructor; [| now apply IH].
      rewrite dict_set_keys. intros [-> | Hin]; [| contradiction].
      now rewrite String.eqb_refl in E.
Qed.

Lemma dict_set_fresh {V : Type} (k : string) (v : V) (d : dict V) :
  ~ In k (map fst d) -> dict_set k v d = d ++ [(k, v)].
Proof.
  induction d as [| [k' v'] d IH]; simpl; intros H; [reflexivity |].
  destruct (String.eqb k k') eqn:E.
  - apply String.eqb_eq in E. subst k'. exfalso. apply H. now left.
  - f_equal. apply IH. intros Hin. apply H. now right.
Qed.

Lemma dict_of_pairs_snoc {V : Type} (l : list (string * V)) (k : string) (v : V) :
  dict_of_pairs (l ++ [(k, v)]) = dict_set k v (dict_of_pairs l).
Proof. unfold dict_of_pairs. now rewrite fold_left_app. Qed.

Lemma dict_of_pairs_nodup {V : Type} (kvs : list (string * V)) :
  NoDup (map fst (dict_of_pairs kvs)).
Proof.
  induction kvs as [| [k v] l IH] using rev_ind; [constructor |].
  rewrite dict_of_pairs_snoc. now apply dict_set_nodup.
Qed.

Lemma dict_of_pairs_last {V : Type} (kvs : list (string * V)) (k : string) :
  dict_get k (dict_of_pairs kvs) = dict_get k (rev kvs).
Proof.
  induction kvs as [| [k' v] l IH] using rev_ind; [reflexivity |].
  rewrite dict_of_pairs_snoc, rev_app_distr. simpl.
  destruct (String.eqb k k') eqn:E.
  - apply String.eqb_eq in E. subst k'. apply dict_get_set_same.
  - rewrite dict_get_set_other by (now apply String.eqb_neq). exact IH.
Qed.

Lemma dict_of_pairs_distinct {V : Type} (kvs : list (string * V)) :
  NoDup (map fst kvs) -> dict_of_pairs kvs = kvs.
Proof.
  induction kvs as [| [k v] l IH] using rev_ind; intros H; [reflexivity |].
  rewrite map_app in H. simpl in H.
  apply NoDup_remove in H as [Hl Hk]. rewrite app_nil_r in Hl, Hk.
  rewrite dict_of_pairs_snoc, (IH Hl). now apply dict_set_fresh.
Qed.

Lemma map_fst_combine {A B : Type} (l : list A) :
  forall m : list B, length l = length m -> map fst (combine l m) = l.
Proof.
  induction l as [| a l IH]; intros [| b m] H; simpl in *;
    try discriminate; [reflexivity |].
  injection H as H. now rewrite (IH m H).
Qed.

(** X10: the weights dictionary of a reported portfolio has every symbol
    once.  A symbol that is listed several times keeps the weight of its
    last occurrence; with distinct symbols and one weight per symbol the
    dictionary pairs each symbol with its weight, in order. *)
Theorem weights_dictionary_keeps_last_weight (self : PortfolioOptimizer)
  (w : ndarray) (stats : float64 * float64 * float64) :
  NoDup (map fst (weights (make_portfolio self w stats)))
  /\ (forall k, dict_get k (weights (make_portfolio self w stats))
                = dict_get k (rev (combine (symbols self) w)))
  /\ (NoDup (symbols self) -> length w = length (symbols self) ->
      weights (make_portfolio self w stats) = combine (symbols self) w).
Proof.
  unfold make_portfolio. cbn [weights]. split; [| split].
  - apply dict_of_pairs_nodup.
  - intros k. apply dict_of_pairs_last.
  - intros Hnd Hlen. apply dict_of_pairs_distinct.
    rewrite map_fst_combine by (symmetry; exact Hlen). exact Hnd.
Qed.

(** ** What [optimize] returns *)

Lemma optimize_success
  (download : list string -> string -> string -> downloaded)
  (minimize :
    (ndarray -> result float64) -> ndarray -> list (float64 * float64) ->
    list constraint -> result OptimizeResult)
  (self self' : PortfolioOptimizer) (res : Results) :
  optimize download minimize self = Ok (self', res) ->
  ensure_data download self = Ok self'
  /\ exists w0 r1 r2 s1 s2 s3,
       uniform_weights (length (symbols self')) = Ok w0
       /\ minimize (negative_sharpe self') w0
                   (repeat (Fin 0, Fin 1) (length (symbols self')))
                   [mkConstraint CEq sum_to_one] = Ok r1
       /\ minimize (portfolio_volatility self') w0
                   (repeat (Fin 0, Fin 1) (length (symbols self')))
                   [mkConstraint CEq sum_to_one] = Ok r2
       /\ portfolio_stats self' (x r1) = Ok s1
       /\ portfolio_stats self' (x r2) = Ok s2
       /\ portfolio_stats self' w0 = Ok s3
       /\ res = mkResults (make_portfolio self' (x r1) s1)
                          (make_portfolio self' (x r2) s2)
                          (make_portfolio self' w0 s3).
Proof.
  intros H. unfold optimize in H.
  destruct (ensure_data download self) as [self1 | e] eqn:E;
    cbn [bind] in H; [| discriminate H].
  destruct (uniform_weights (length (symbols self1))) as [w0 | e] eqn:Ew;
    cbn [bind] in H; [| discriminate H].
  destruct (minimize (negative_sharpe self1) w0 _ _) as [r1 | e] eqn:E1;
    cbn [bind] in H; [| discriminate H].
  destruct (minimize (portfolio_volatility self1) w0 _ _) as [r2 | e] eqn:E2;
    cbn [bind] in H; [| discriminate H].
  destruct (portfolio_stats self1 (x r1)) as [s1 | e] eqn:P1;
    cbn [bind] in H; [| discriminate H].
  destruct (portfolio_stats self1 (x r2)) as [s2 | e] eqn:P2;
    cbn [bind] in H; [| discriminate H].
  destruct (portfolio_stats self1 w0) as [s3 | e] eqn:P3;
    cbn [bind] in H; [| discriminate H].
  injection H as <- <-. split; [reflexivity |].
  exists w0, r1, r2, s1, s2, s3. repeat split; assumption.
Qed.

(** X11: without symbols [optimize] cannot succeed, whatever the solver: the
    quotient [1/num_assets] raises ZeroDivisionError before the solver is
    called (when the data still has to be fetched, an error of [fetch_data]
    may come first). *)
Theorem optimize_without_symbols_raises
  (download : list string -> string -> string -> downloaded)
  (minimize :
    (ndarray -> result float64) -> ndarray -> list (float64 * float64) ->
    list constraint -> result OptimizeResult)
  (self : PortfolioOptimizer) :
  symbols self = [] ->
  (forall r, optimize download minimize self <> Ok r)
  /\ (returns self <> None ->
      optimize download minimize self = Raise ZeroDivisionError).
Proof.
  intros Hs. split.
  - intros [self' res] H. apply optimize_success in H as (E & w0 & _ & _ & _ & _ & _ & Hw & _).
    apply ensure_data_symbols in E as (Hsym & _).
    rewrite Hsym, Hs in Hw. discriminate Hw.
  - intros Hc. unfold optimize. rewrite (ensure_data_cached download self Hc).
    cbn [bind]. rewrite Hs. reflexivity.
Qed.

Lemma optimize_without_symbols_raises_witness :
  (forall r, optimize download_two_assets solver_claims_success no_symbols <> Ok r)
  /\ (returns no_symbols <> None ->
      optimize download_two_assets solver_claims_success no_symbols
      = Raise ZeroDivisionError).
Proof.
  apply (optimize_without_symbols_raises
           download_two_assets solver_claims_success no_symbols).
  reflexivity.
Defined.

Lemma dot_repeat_l (c : R) (mu : list R) :
  dot (repeat c (length mu)) mu = c * Rsum mu.
Proof.
  unfold dot. induction mu as [| m mu IH]; simpl; [lra |].
  rewrite IH. lra.
Qed.

(** X12: the equal-weight benchmark gives every symbol the weight [1/n]; its
    reported return is the arithmetic mean of the assets' mean returns, and
    the whole entry is the same whatever solver is used. *)
Theorem equal_weight_is_mean_of_means
  (download : list string -> string -> string -> downloaded)
  (minimize :
    (ndarray -> result float64) -> ndarray -> list (float64 * float64) ->
    list constraint -> result OptimizeResult)
  (self self' : PortfolioOptimizer) (res : Results)
  (mu : list R) (C : list (list R)) (rf : R) :
  optimize download minimize self = Ok (self', res) ->
  holds_stats self' mu C rf ->
  length mu = length (symbols self') ->
  square (length (symbols self')) C ->
  p_return (equal_weight res)
  = Fin (Rsum mu / INR (length (symbols self')))
  /\ weights (equal_weight res)
     = dict_of_pairs
         (combine (symbols self')
                  (repeat (Fin (1 / INR (length (symbols self'))))
                          (length (symbols self'))))
  /\ forall minimize' self2 res2,
       optimize download minimize' self = Ok (self2, res2) ->
       equal_weight res2 = equal_weight res.
Proof.
  intros H Hst Hlen Hsq.
  apply optimize_success in H
    as (E & w0 & r1 & r2 & s1 & s2 & s3 & Hw & _ & _ & _ & _ & P3 & ->).
  cbn [equal_weight].
  assert (Hw0 : w0 = map Fin (repeat (1 / INR (length (symbols self')))
                                     (length (symbols self')))).
  { destruct (length (symbols self')) as [| n] eqn:En; [discriminate Hw |].
    unfold uniform_weights in Hw. injection Hw as <-. now rewrite map_repeat. }
  split; [| split].
  - rewrite Hw0 in P3.
    rewrite (portfolio_stats_finite self' mu C rf _ Hst) in P3
      by (rewrite ?repeat_length; assumption).
    injection P3 as <-. cbn [make_portfolio p_return fst].
    f_equal. rewrite <- Hlen, dot_repeat_l. unfold Rdiv. lra.
  - cbn [make_portfolio weights]. rewrite Hw0. now rewrite map_repeat.
  - intros minimize' self2 res2 H2.
    apply optimize_success in H2
      as (E' & w0' & r1' & r2' & s1' & s2' & s3' & Hw' & _ & _ & _ & _ & P3' & ->).
    rewrite E in E'. injection E' as Hself. subst self2.
    rewrite Hw in Hw'. injection Hw' as Hw0'. subst w0'.
    rewrite P3 in P3'. injection P3' as Hs3. subst s3'. reflexivity.
Qed.

Lemma equal_weight_is_mean_of_means_witness :
  p_return (equal_weight half_half_results)
  = Fin (Rsum two_asset_means / INR (length (symbols two_assets_fetched)))
  /\ weights (equal_weight half_half_results)
     = dict_of_pairs
         (combine (symbols two_assets_fetched)
                  (repeat (Fin (1 / INR (length (symbols two_assets_fetched))))
                          (length (symbols two_assets_fetched))))
  /\ forall minimize' self2 res2,
       optimize download_two_assets minimize' two_assets = Ok (self2, res2) ->
       equal_weight res2 = equal_weight half_half_results.
Proof.
  apply (equal_weight_is_mean_of_means download_two_assets solver_gives_up
           two_assets two_assets_fetched half_half_results
           two_asset_means two_asset_cov (1 / 50)).
  - exact optimize_two_assets_gives_up.
  - repeat split.
  - reflexivity.
  - split; [reflexivity | repeat constructor].
Defined.

(** X13: on success, with statistics of the right shape, both iterates of
    the solver have one weight per symbol, and each reported triple is
    [portfolio_stats] evaluated again at the returned iterate: the reported
    Sharpe ratio of [max_sharpe] is minus the objective there and the
    reported volatility of [min_volatility] is the objective there.  With
    distinct symbols the reported weights pair every symbol with its entry
    of the iterate. *)
Theorem optimize_reports_statistics_of_iterates
  (download : list string -> string -> string -> downloaded)
  (minimize :
    (ndarray -> result float64) -> ndarray -> list (float64 * float64) ->
    list constraint -> result OptimizeResult)
  (self self' : PortfolioOptimizer) (res : Results) :
  optimize download minimize self = Ok (self', res) ->
  well_shaped self' ->
  exists w0 r1 r2,
    minimize (negative_sharpe self') w0
             (repeat (Fin 0, Fin 1) (length (symbols self')))
             [mkConstraint CEq sum_to_one] = Ok r1
    /\ minimize (portfolio_volatility self') w0
                (repeat (Fin 0, Fin 1) (length (symbols self')))
                [mkConstraint CEq sum_to_one] = Ok r2
    /\ length (x r1) = length (symbols self')
    /\ length (x r2) = length (symbols self')
    /\ portfolio_stats self' (x r1)
       = Ok (p_return (max_sharpe res), p_volatility (max_sharpe res),
             p_sharpe (max_sharpe res))
    /\ portfolio_stats self' (x r2)
       = Ok (p_return (min_volatility res), p_volatility (min_volatility res),
             p_sharpe (min_volatility res))
    /\ negative_sharpe self' (x r1) = Ok (np_neg (p_sharpe (max_sharpe res)))
    /\ portfolio_volatility self' (x r2) = Ok (p_volatility (min_volatility res))
    /\ (NoDup (symbols self') ->
        weights (max_sharpe res) = combine (symbols self') (x r1)
        /\ weights (min_volatility res) = combine (symbols self') (x r2)).
Proof.
  intros H Hshape.
  apply optimize_success in H
    as (E & w0 & r1 & r2 & [[a1 b1] c1] & [[a2 b2] c2] & s3
        & Hw & M1 & M2 & P1 & P2 & P3 & ->).
  assert (L1 : length (x r1) = length (symbols self')).
  { destruct (Nat.eq_dec (length (x r1)) (length (symbols self'))) as [Heq | Hne];
      [exact Heq |].
    rewrite (portfolio_stats_wrong_length self' _ Hshape Hne) in P1.
    discriminate P1. }
  assert (L2 : length (x r2) = length (symbols self')).
  { destruct (Nat.eq_dec (length (x r2)) (length (symbols self'))) as [Heq | Hne];
      [exact Heq |].
    rewrite (portfolio_stats_wrong_length self' _ Hshape Hne) in P2.
    discriminate P2. }
  exists w0, r1, r2. cbn [max_sharpe min_volatility make_portfolio
                          p_return p_volatility p_sharpe weights fst snd].
  repeat (split; [assumption |]).
  unfold negative_sharpe, portfolio_volatility. rewrite P1, P2.
  split; [reflexivity |]. split; [reflexivity |].
  intros Hnd. split; apply dict_of_pairs_distinct;
    rewrite map_fst_combine by (symmetry; assumption); exact Hnd.
Qed.

Lemma optimize_reports_statistics_of_iterates_witness :
  exists w0 r1 r2,
    solver_gives_up (negative_sharpe two_assets_fetched) w0
             (repeat (Fin 0, Fin 1) (length (symbols two_assets_fetched)))
             [mkConstraint CEq sum_to_one] = Ok r1
    /\ solver_gives_up (portfolio_volatility two_assets_fetched) w0
                (repeat (Fin 0, Fin 1) (length (symbols two_assets_fetched)))
                [mkConstraint CEq sum_to_one] = Ok r2
    /\ length (x r1) = length (symbols two_assets_fetched)
    /\ length (x r2) = length (symbols two_assets_fetched)
    /\ portfolio_stats two_assets_fetched (x r1)
       = Ok (p_return (max_sharpe half_half_results),
             p_volatility (max_sharpe half_half_results),
             p_sharpe (max_sharpe half_half_results))
    /\ portfolio_stats two_assets_fetched (x r2)
       = Ok (p_return (min_volatility half_half_results),
             p_volatility (min_volatility half_half_results),
             p_sharpe (min_volatility half_half_results))
    /\ negative_sharpe two_assets_fetched (x r1)
       = Ok (np_neg (p_sharpe (max_sharpe half_half_results)))
    /\ portfolio_volatility two_assets_fetched (x r2)
       = Ok (p_volatility (min_volatility half_half_results))
    /\ (NoDup (symbols two_assets_fetched) ->
        weights (max_sharpe half_half_results)
        = combine (symbols two_assets_fetched) (x r1)
        /\ weights (min_volatility half_half_results)
           = combine (symbols two_assets_fetched) (x r2)).
Proof.
  apply (optimize_reports_statistics_of_iterates download_two_assets
           solver_gives_up two_assets two_assets_fetched half_half_results).
  - exact optimize_two_assets_gives_up.
  - exists (map Fin two_asset_means), (map (map Fin) two_asset_cov).
    repeat split. repeat constructor.
Defined.

(** ** The sampling loop and the plot *)

Lemma fold_append_sample (sts : list (float64 * float64 * float64)) :
  forall acc,
    fold_left append_sample sts acc
    = mkSamples (returns_list acc ++ returns_list (samples_of sts))
                (volatility_list acc ++ volatility_list (samples_of sts))
                (sharpe_list acc ++ sharpe_list (samples_of sts)).
Proof.
  induction sts as [| st sts IH]; intros acc; simpl.
  - rewrite !app_nil_r. now destruct acc.
  - rewrite IH. unfold append_sample. simpl. now rewrite <- !app_assoc.
Qed.

Lemma sample_loop_as_map (rng_state : Type)
  (np_random : nat -> rng_state -> ndarray * rng_state)
  (self : PortfolioOptimizer) (n : nat) :
  forall g acc,
    sample_loop rng_state np_random self n g acc
    = (sts <- mapM (portfolio_stats self)
                   (fst (sample_seq rng_state np_random self n g)) ;;
       Ok (fold_left append_sample sts acc,
           snd (sample_seq rng_state np_random self n g))).
Proof.
  induction n as [| n IH]; intros g acc; [reflexivity |].
  cbn [sample_loop sample_seq].
  destruct (sample_weights rng_state np_random self g) as [w g1].
  specialize (IH g1).
  destruct (sample_seq rng_state np_random self n g1) as [ws g2].
  cbn [fst snd mapM] in *.
  destruct (portfolio_stats self w) as [st | e]; cbn [bind]; [| reflexivity].
  rewrite IH. destruct (mapM (portfolio_stats self) ws); reflexivity.
Qed.

Lemma length_sample_seq (rng_state : Type)
  (np_random : nat -> rng_state -> ndarray * rng_state)
  (self : PortfolioOptimizer) (n : nat) :
  forall g, length (fst (sample_seq rng_state np_random self n g)) = n.
Proof.
  induction n as [| n IH]; intros g; [reflexivity |].
  cbn [sample_seq].
  destruct (sample_weights rng_state np_random self g) as [w g1].
  specialize (IH g1).
  destruct (sample_seq rng_state np_random self n g1) as [ws g2].
  simpl in *. now rewrite IH.
Qed.

(** X14: the sampling loop is a map over the successive draws: it draws [n]
    weight vectors in order, the three lists hold, position by position, the
    return, volatility and Sharpe ratio of the same weight vector, and the
    first error of [portfolio_stats] ends the loop. *)
Theorem sample_loop_maps_portfolio_stats (rng_state : Type)
  (np_random : nat -> rng_state -> ndarray * rng_state)
  (self : PortfolioOptimizer) (n : nat) (g : rng_state) :
  sample_loop rng_state np_random self n g (mkSamples [] [] [])
  = (sts <- mapM (portfolio_stats self)
                 (fst (sample_seq rng_state np_random self n g)) ;;
     Ok (samples_of sts, snd (sample_seq rng_state np_random self n g)))
  /\ length (fst (sample_seq rng_state np_random self n g)) = n.
Proof.
  split; [| apply length_sample_seq].
  rewrite sample_loop_as_map.
  destruct (mapM (portfolio_stats self) _) as [sts | e]; [| reflexivity].
  cbn [bind]. rewrite fold_append_sample. reflexivity.
Qed.

Lemma optimize_after_ensure
  (download : list string -> string -> string -> downloaded)
  (minimize :
    (ndarray -> result float64) -> ndarray -> list (float64 * float64) ->
    list constraint -> result OptimizeResult)
  (self self1 : PortfolioOptimizer) :
  ensure_data download self = Ok self1 ->
  optimize download minimize self1 = optimize download minimize self.
Proof.
  intros E.
  assert (Hc : returns self1 <> None) by (apply ensure_data_symbols in E; tauto).
  unfold optimize. now rewrite E, (ensure_data_cached download self1 Hc).
Qed.

(** X16: when the plot succeeds, its stars are exactly what [optimize]
    returns on the same object, its scatter holds the statistics of the
    successively sampled weight vectors, evaluated on the object with its
    data loaded, and the generator has advanced by that many draws. *)
Theorem plot_shows_optimize_and_samples
  (download : list string -> string -> string -> downloaded)
  (minimize :
    (ndarray -> result float64) -> ndarray -> list (float64 * float64) ->
    list constraint -> result OptimizeResult)
  (rng_state : Type) (np_random : nat -> rng_state -> ndarray * rng_state)
  (self s : PortfolioOptimizer) (count : Z) (g g' : rng_state) (p : Plot) :
  plot_efficient_frontier download minimize rng_state np_random self count g
  = Ok (s, g', p) ->
  optimize download minimize self = Ok (s, stars p)
  /\ exists sts,
       mapM (portfolio_stats s)
            (fst (sample_seq rng_state np_random s (Z.to_nat count) g)) = Ok sts
       /\ scatter p = samples_of sts
       /\ length (returns_list (scatter p)) = Z.to_nat count
       /\ g' = snd (sample_seq rng_state np_random s (Z.to_nat count) g).
Proof.
  intros H.
  destruct (plot_first_call_caches _ _ _ _ _ _ _ _ _ _ H) as (E & Hc & Hopt).
  split.
  - rewrite <- (optimize_after_ensure download minimize self s E). apply Hopt.
  - unfold plot_efficient_frontier in H. rewrite E in H. cbn [bind] in H.
    pose proof (length_sample_seq rng_state np_random s (Z.to_nat count) g)
      as Hlen.
    rewrite sample_loop_as_map in H.
    destruct (mapM (portfolio_stats s) _) as [sts | e] eqn:Em;
      cbn [bind] in H; [| discriminate H].
    rewrite fold_append_sample in H. cbn [returns_list volatility_list
      sharpe_list app] in H. fold (samples_of sts) in H.
    rewrite (Hopt download) in H. cbn [bind fst snd] in H.
    injection H as <- <-. exists sts. cbn [scatter].
    split; [reflexivity |]. split; [reflexivity |]. split; [| reflexivity].
    unfold samples_of. cbn [returns_list]. rewrite length_map.
    clear - Em Hlen. rewrite <- Hlen.
    revert sts Em.
    generalize (fst (sample_seq rng_state np_random s (Z.to_nat count) g)).
    induction l as [| w ws IH]; intros sts Em; simpl in Em.
    + injection Em as <-. reflexivity.
    + destruct (portfolio_stats s w); cbn [bind] in Em; [| discriminate Em].
      destruct (mapM (portfolio_stats s) ws) as [bs |]; cbn [bind] in Em;
        [| discriminate Em].
      injection Em as <-. simpl. f_equal. now apply IH.
Qed.

Lemma normalize_halves :
  normalize (repeat (Fin (1 / 2)) 2) = map Fin [1 / 2; 1 / 2].
Proof.
  change (repeat (Fin (1 / 2)) 2) with (map Fin [1 / 2; 1 / 2]).
  rewrite normalize_fin by (unfold Rsum; simpl; lra).
  unfold Rsum. simpl. fin_eq.
Qed.

Lemma plot_two_assets :
  plot_efficient_frontier download_two_assets solver_gives_up unit draw_halves
                          two_assets 1 tt
  = Ok (two_assets_fetched, tt, half_half_plot).
Proof.
  unfold plot_efficient_frontier, ensure_data. cbn [returns two_assets init].
  rewrite fetch_two_assets. cbn [bind].
  change (Z.to_nat 1) with 1%nat.
  cbn [sample_loop]. unfold sample_weights.
  change (draw_halves (length (symbols two_assets_fetched)) tt)
    with (repeat (Fin (1 / 2)) 2, tt).
  cbv beta match.
  rewrite normalize_halves, two_assets_half_half. cbn [bind].
  destruct (optimize_inv download_two_assets download_two_assets solver_gives_up
              two_assets two_assets_fetched half_half_results
              optimize_two_assets_gives_up) as [_ Hrun].
  rewrite Hrun. reflexivity.
Qed.

Lemma plot_shows_optimize_and_samples_witness :
  optimize download_two_assets solver_gives_up two_assets
  = Ok (two_assets_fetched, stars half_half_plot)
  /\ exists sts,
       mapM (portfolio_stats two_assets_fetched)
            (fst (sample_seq unit draw_halves two_assets_fetched (Z.to_nat 1) tt))
       = Ok sts
       /\ scatter half_half_plot = samples_of sts
       /\ length (returns_list (scatter half_half_plot)) = Z.to_nat 1
       /\ tt = snd (sample_seq unit draw_halves two_assets_fetched (Z.to_nat 1) tt).
Proof.
  apply (plot_shows_optimize_and_samples download_two_assets solver_gives_up
           unit draw_halves two_assets two_assets_fetched 1 tt tt half_half_plot).
  exact plot_two_assets.
Defined.

(** ** Weights that are not numbers *)

Lemma normalize_zeros (n : nat) :
  normalize (repeat (Fin 0) n) = repeat NaN n.
Proof.
  unfold normalize. rewrite map_repeat. f_equal.
  replace (repeat (Fin 0) n) with (map Fin (repeat 0 n)) by apply map_repeat.
  rewrite np_sum_fin, Rsum_repeat. simpl.
  rewrite (Rsign_zero_eq (INR n * 0)) by lra. simpl. now rewrite Rsign_zero.
Qed.

Lemma map2_mul_nan_r (a : list float64) :
  forall n, length a = n -> map2 np_mul a (repeat NaN n) = repeat NaN n.
Proof.
  induction a as [| v a IH]; intros [| n] H; simpl in *; try discriminate;
    [reflexivity |].
  injection H as H. rewrite (IH n H). f_equal. now destruct v.
Qed.

Lemma filter_notna_nan (n : nat) : filter notna (repeat NaN n) = [].
Proof. induction n as [| n IH]; simpl; [reflexivity | exact IH]. Qed.

Lemma fold_np_add_nan (l : list float64) : fold_left np_add l NaN = NaN.
Proof. induction l as [| v l IH]; simpl; [reflexivity | exact IH]. Qed.

Lemma np_sum_nan (n : nat) : n <> 0%nat -> np_sum (repeat NaN n) = NaN.
Proof.
  intros H. destruct n as [| n]; [contradiction |].
  unfold np_sum. simpl. apply fold_np_add_nan.
Qed.

Lemma np_dot_nan_r (a : list float64) (n : nat) :
  length a = n -> n <> 0%nat -> np_dot a (repeat NaN n) = Ok NaN.
Proof.
  intros Ha Hn. unfold np_dot. rewrite repeat_length, Ha, Nat.eqb_refl.
  now rewrite (map2_mul_nan_r a n Ha), np_sum_nan.
Qed.

Lemma np_dot_mv_nan (m : matrix) (n : nat) :
  Forall (fun row => length row = n) m -> n <> 0%nat ->
  np_dot_mv m (repeat NaN n) = Ok (repeat NaN (length m)).
Proof.
  intros Hrows Hn. unfold np_dot_mv.
  induction Hrows as [| row m Hrow _ IH]; simpl; [reflexivity |].
  rewrite (np_dot_nan_r row n Hrow Hn). cbn [bind]. rewrite IH. reflexivity.
Qed.

(** X17: weights that are all NaN raise nothing.  The return is reported as
    0, because the sum over the Series skips missing values, while volatility
    and Sharpe ratio are NaN.  The sampling loop produces such weights when
    every draw is 0, the division by their sum being [0/0]. *)
Theorem nan_weights_give_zero_return (rng_state : Type)
  (np_random : nat -> rng_state -> ndarray * rng_state)
  (self : PortfolioOptimizer) (g : rng_state) :
  well_shaped self ->
  symbols self <> [] ->
  portfolio_stats self (repeat NaN (length (symbols self)))
  = Ok (Fin 0, NaN, NaN)
  /\ (fst (np_random (length (symbols self)) g)
      = repeat (Fin 0) (length (symbols self)) ->
      fst (sample_weights rng_state np_random self g)
      = repeat NaN (length (symbols self))).
Proof.
  intros (mu & cov & Hmu & Hcov & Lmu & Lcov & Hrows) Hs.
  set (n := length (symbols self)) in *.
  assert (Hn : n <> 0%nat)
    by (unfold n; destruct (symbols self); [contradiction | discriminate]).
  split.
  - unfold portfolio_stats. rewrite Hmu, Hcov. cbn [attr bind].
    unfold series_mul. rewrite repeat_length, Lmu, Nat.eqb_refl. cbn [bind].
    rewrite (map2_mul_nan_r mu n Lmu).
    rewrite (np_dot_mv_nan cov n Hrows Hn). cbn [bind].
    rewrite Lcov.
    rewrite (np_dot_nan_r (repeat NaN n) n (repeat_length _ _) Hn). cbn [bind].
    unfold series_sum. rewrite filter_notna_nan.
    destruct (risk_free_rate self); reflexivity.
  - intros Hd. unfold sample_weights. fold n.
    destruct (np_random n g) as [w g1]. simpl in *. subst w.
    apply normalize_zeros.
Qed.

Lemma nan_weights_give_zero_return_witness :
  portfolio_stats two_assets_fetched
                  (repeat NaN (length (symbols two_assets_fetched)))
  = Ok (Fin 0, NaN, NaN)
  /\ (fst (draw_zeros (length (symbols two_assets_fetched)) tt)
      = repeat (Fin 0) (length (symbols two_assets_fetched)) ->
      fst (sample_weights unit draw_zeros two_assets_fetched tt)
      = repeat NaN (length (symbols two_assets_fetched))).
Proof.
  apply (nan_weights_give_zero_return unit draw_zeros two_assets_fetched tt).
  - exists (map Fin two_asset_means), (map (map Fin) two_asset_cov).
    repeat split. repeat constructor.
  - discriminate.
Defined.

(** ** The two solver calls of [optimize] *)

(** Splits the goal on the outcome of every step of a chain of binds. *)
Ltac split_binds :=
  repeat match goal with
    | |- context [bind ?m _] =>
        lazymatch m with
        | bind _ _ => fail
        | Ok _ => fail
        | Raise _ => fail
        | _ => destruct m; cbn [bind fst snd]; try reflexivity
        end
    end.

Lemma optimize_calls
  (download : list string -> string -> string -> downloaded)
  (minimize :
    (ndarray -> result float64) -> ndarray -> list (float64 * float64) ->
    list constraint -> result OptimizeResult)
  (self self1 : PortfolioOptimizer) :
  ensure_data download self = Ok self1 ->
  (0 < length (symbols self1))%nat ->
  let n := length (symbols self1) in
  let x0 := repeat (Fin (1 / INR n)) n in
  let bounds := repeat (Fin 0, Fin 1) n in
  let cons := [mkConstraint CEq sum_to_one] in
  optimize download minimize self
  = (r1 <- minimize (negative_sharpe self1) x0 bounds cons ;;
     r2 <- minimize (portfolio_volatility self1) x0 bounds cons ;;
     s1 <- portfolio_stats self1 (x r1) ;;
     s2 <- portfolio_stats self1 (x r2) ;;
     s3 <- portfolio_stats self1 x0 ;;
     Ok (self1,
         mkResults (make_portfolio self1 (x r1) s1)
                   (make_portfolio self1 (x r2) s2)
                   (make_portfolio self1 x0 s3))).
Proof.
  intros E Hn n x0 bounds cons. unfold optimize. rewrite E. cbn [bind].
  fold n. subst x0 bounds cons.
  destruct n as [| m] eqn:En; [lia |]. reflexivity.
Qed.

Lemma ensure_data_fresh
  (download : list string -> string -> string -> downloaded)
  (self : PortfolioOptimizer) :
  returns self = None -> ensure_data download self = fetch_data download self.
Proof. intros H. unfold ensure_data. now rewrite H. Qed.

Lemma ensure_two_assets :
  ensure_data download_two_assets two_assets = Ok two_assets_fetched.
Proof. rewrite ensure_data_fresh by reflexivity. exact fetch_two_assets. Qed.

Lemma two_assets_uniform_start :
  portfolio_stats two_assets_fetched
    (repeat (Fin (1 / INR (length (symbols two_assets_fetched))))
            (length (symbols two_assets_fetched)))
  = Ok half_half_stats.
Proof.
  unfold half_half_stats. rewrite <- two_assets_half_half. f_equal.
Qed.

Lemma two_assets_all_in_B :
  portfolio_stats two_assets_fetched [Fin 0; Fin 1] = Ok all_in_B_stats.
Proof.
  change [Fin 0; Fin 1] with (map Fin [0; 1]).
  rewrite (portfolio_stats_finite _ _ _ _ _ two_assets_hold_stats);
    [ | reflexivity | split; [reflexivity | repeat constructor] ].
  replace (dot [0; 1] two_asset_means) with 126
    by (unfold dot, two_asset_means, Rsum; simpl; lra).
  replace (quad_form [0; 1] two_asset_cov) with 126
    by (unfold quad_form, two_asset_cov, Rsum; simpl; lra).
  rewrite np_sqrt_nonneg by lra. rewrite np_div_fin; [reflexivity |].
  assert (0 < sqrt 126) by (apply sqrt_lt_R0; lra). lra.
Qed.

Lemma optimize_two_assets_stalls :
  optimize download_two_assets solver_stalls two_assets
  = Ok (two_assets_fetched, stalled_results).
Proof.
  rewrite (optimize_calls _ _ _ _ ensure_two_assets) by (simpl; lia).
  cbn [solver_stalls bind x]. rewrite two_assets_all_in_B. cbn [bind].
  rewrite two_assets_uniform_start. cbn [bind]. reflexivity.
Qed.

(** C2 as amended: whatever success flag, status and message the solver
    reports, [optimize] takes the iterate [x] of each of its two outcomes as
    the weights and reports [portfolio_stats] of that iterate; it returns
    normally when those statistics are defined.  It reads nothing else of an
    outcome: a solver with the same iterates gives the same result. *)
Theorem optimize_returns_iterate_whatever_status
  (download : list string -> string -> string -> downloaded)
  (minimize :
    (ndarray -> result float64) -> ndarray -> list (float64 * float64) ->
    list constraint -> result OptimizeResult)
  (self self1 : PortfolioOptimizer) (r1 r2 : OptimizeResult)
  (s1 s2 s3 : float64 * float64 * float64) :
  ensure_data download self = Ok self1 ->
  (0 < length (symbols self1))%nat ->
  minimize (negative_sharpe self1)
           (repeat (Fin (1 / INR (length (symbols self1))))
                   (length (symbols self1)))
           (repeat (Fin 0, Fin 1) (length (symbols self1)))
           [mkConstraint CEq sum_to_one] = Ok r1 ->
  minimize (portfolio_volatility self1)
           (repeat (Fin (1 / INR (length (symbols self1))))
                   (length (symbols self1)))
           (repeat (Fin 0, Fin 1) (length (symbols self1)))
           [mkConstraint CEq sum_to_one] = Ok r2 ->
  portfolio_stats self1 (x r1) = Ok s1 ->
  portfolio_stats self1 (x r2) = Ok s2 ->
  portfolio_stats self1 (repeat (Fin (1 / INR (length (symbols self1))))
                                (length (symbols self1))) = Ok s3 ->
  optimize download minimize self
  = Ok (self1,
        mkResults
          (make_portfolio self1 (x r1) s1)
          (make_portfolio self1 (x r2) s2)
          (make_portfolio self1
             (repeat (Fin (1 / INR (length (symbols self1))))
                     (length (symbols self1))) s3))
  /\ forall minimize',
       (forall f x0 bounds cons,
           iterate_of (minimize' f x0 bounds cons)
           = iterate_of (minimize f x0 bounds cons)) ->
       optimize download minimize' self = optimize download minimize self.
Proof.
  intros E Hn M1 M2 P1 P2 P3. split.
  - rewrite (optimize_calls download minimize self self1 E Hn).
    cbv zeta. rewrite M1. cbn [bind]. rewrite M2. cbn [bind].
    rewrite P1. cbn [bind]. rewrite P2. cbn [bind]. rewrite P3. reflexivity.
  - intros minimize' H. now apply optimize_reads_iterates_only.
Qed.

Lemma optimize_returns_iterate_whatever_status_witness :
  optimize download_two_assets solver_stalls two_assets
  = Ok (two_assets_fetched,
        mkResults
          (make_portfolio two_assets_fetched (x stalled_iterate) all_in_B_stats)
          (make_portfolio two_assets_fetched (x stalled_iterate) all_in_B_stats)
          (make_portfolio two_assets_fetched
             (repeat (Fin (1 / INR (length (symbols two_assets_fetched))))
                     (length (symbols two_assets_fetched))) half_half_stats))
  /\ forall minimize',
       (forall f x0 bounds cons,
           iterate_of (minimize' f x0 bounds cons)
           = iterate_of (solver_stalls f x0 bounds cons)) ->
       optimize download_two_assets minimize' two_assets
       = optimize download_two_assets solver_stalls two_assets.
Proof.
  apply (optimize_returns_iterate_whatever_status download_two_assets
           solver_stalls two_assets two_assets_fetched
           stalled_iterate stalled_iterate
           all_in_B_stats all_in_B_stats half_half_stats).
  - exact ensure_two_assets.
  - simpl. lia.
  - reflexivity.
  - reflexivity.
  - exact two_assets_all_in_B.
  - exact two_assets_all_in_B.
  - exact two_assets_uniform_start.
Defined.

(** C2 fails when the solver does not converge: with a solver that reports
    failure at an iterate other than its starting point, [optimize] returns
    normally and reports that iterate as the optimal weights. *)
Lemma unconverged_iterate_counterexample :
  (forall f x0 bounds cons r,
      solver_stalls f x0 bounds cons = Ok r ->
      success r = false /\ x r = [Fin 0; Fin 1])
  /\ optimize download_two_assets solver_stalls two_assets
     = Ok (two_assets_fetched, stalled_results)
  /\ weights (max_sharpe stalled_results)
     = [("A"%string, Fin 0); ("B"%string, Fin 1)]
  /\ weights (min_volatility stalled_results)
     = [("A"%string, Fin 0); ("B"%string, Fin 1)]
  /\ p_return (max_sharpe stalled_results) = Fin 126
  /\ forall e,
       optimize download_two_assets solver_stalls two_assets <> Raise e.
Proof.
  split; [| split; [| split; [| split; [| split]]]].
  - intros f x0 bounds cons r H. injection H as <-. split; reflexivity.
  - exact optimize_two_assets_stalls.
  - reflexivity.
  - reflexivity.
  - reflexivity.
  - intros e He. rewrite optimize_two_assets_stalls in He. discriminate.
Qed.

(** ** The starting point, the bounds and the constraint *)

Lemma sum_to_one_zero_iff (v : ndarray) :
  sum_to_one v = Fin 0 <-> np_sum v = Fin 1.
Proof.
  unfold sum_to_one, np_sub. destruct (np_sum v) as [a | | |]; simpl;
    split; intros H; try discriminate.
  - injection H as H. f_equal. lra.
  - injection H as ->. f_equal. lra.
Qed.

Lemma uniform_weight_in_bounds (n : nat) :
  (0 < n)%nat -> 0 <= 1 / INR n <= 1.
Proof.
  intros Hn.
  assert (Hpos : 1 <= INR n) by (apply le_INR in Hn; simpl in Hn; lra).
  assert (Hinv : 0 < / INR n) by (apply Rinv_0_lt_compat; lra).
  assert (Hone : INR n * / INR n = 1) by (apply Rinv_r; lra).
  unfold Rdiv. split; nra.
Qed.

Lemma portfolio_stats_same_statistics (a b : PortfolioOptimizer) :
  risk_free_rate a = risk_free_rate b ->
  mean_returns a = mean_returns b ->
  cov_matrix a = cov_matrix b ->
  portfolio_stats a = portfolio_stats b.
Proof.
  intros Hrf Hmu Hcov. apply functional_extensionality. intros w.
  unfold portfolio_stats. now rewrite Hrf, Hmu, Hcov.
Qed.

Lemma optimize_same_statistics
  (download : list string -> string -> string -> downloaded)
  (minimize :
    (ndarray -> result float64) -> ndarray -> list (float64 * float64) ->
    list constraint -> result OptimizeResult)
  (a b : PortfolioOptimizer) :
  returns a <> None -> returns b <> None ->
  symbols a = symbols b ->
  risk_free_rate a = risk_free_rate b ->
  mean_returns a = mean_returns b ->
  cov_matrix a = cov_matrix b ->
  (r <- optimize download minimize a ;; Ok (snd r))
  = (r <- optimize download minimize b ;; Ok (snd r)).
Proof.
  intros Ha Hb Hs Hrf Hmu Hcov.
  pose proof (portfolio_stats_same_statistics a b Hrf Hmu Hcov) as Hps.
  assert (Hns : negative_sharpe a = negative_sharpe b)
    by (apply functional_extensionality; intros w; unfold negative_sharpe;
        now rewrite Hps).
  assert (Hpv : portfolio_volatility a = portfolio_volatility b)
    by (apply functional_extensionality; intros w; unfold portfolio_volatility;
        now rewrite Hps).
  unfold optimize.
  rewrite (ensure_data_cached download a Ha), (ensure_data_cached download b Hb).
  cbn [bind]. unfold make_portfolio. rewrite Hs, Hns, Hpv, Hps.
  split_binds.
Qed.

(** C8: once the data is loaded, [optimize] is the chain of the two solver
    calls, both started from the same point with every weight [1/n], under
    the bounds [(0, 1)] on every weight and the single equality constraint
    [sum(x) - 1], which vanishes exactly where the sum is 1; the starting
    weight lies within the bounds.  Nothing else enters: a second run on the
    loaded object, and a run on any object that holds the same symbols, rate
    and statistics, give the same results. *)
Theorem optimize_starts_from_uniform_weights
  (download : list string -> string -> string -> downloaded)
  (minimize :
    (ndarray -> result float64) -> ndarray -> list (float64 * float64) ->
    list constraint -> result OptimizeResult)
  (self self1 : PortfolioOptimizer) :
  ensure_data download self = Ok self1 ->
  (0 < length (symbols self1))%nat ->
  let n := length (symbols self1) in
  let x0 := repeat (Fin (1 / INR n)) n in
  let bounds := repeat (Fin 0, Fin 1) n in
  let cons := [mkConstraint CEq sum_to_one] in
  optimize download minimize self
  = (r1 <- minimize (negative_sharpe self1) x0 bounds cons ;;
     r2 <- minimize (portfolio_volatility self1) x0 bounds cons ;;
     s1 <- portfolio_stats self1 (x r1) ;;
     s2 <- portfolio_stats self1 (x r2) ;;
     s3 <- portfolio_stats self1 x0 ;;
     Ok (self1,
         mkResults (make_portfolio self1 (x r1) s1)
                   (make_portfolio self1 (x r2) s2)
                   (make_portfolio self1 x0 s3)))
  /\ 0 <= 1 / INR n <= 1
  /\ (forall v, sum_to_one v = Fin 0 <-> np_sum v = Fin 1)
  /\ (forall download',
         optimize download' minimize self1 = optimize download minimize self)
  /\ (forall other,
         returns other <> None ->
         symbols other = symbols self1 ->
         risk_free_rate other = risk_free_rate self1 ->
         mean_returns other = mean_returns self1 ->
         cov_matrix other = cov_matrix self1 ->
         (r <- optimize download minimize other ;; Ok (snd r))
         = (r <- optimize download minimize self ;; Ok (snd r))).
Proof.
  intros E Hn n x0 bounds cons.
  assert (Hc : returns self1 <> None) by (apply ensure_data_symbols in E; tauto).
  split; [exact (optimize_calls download minimize self self1 E Hn) |].
  split; [now apply uniform_weight_in_bounds |].
  split; [exact sum_to_one_zero_iff |]. split.
  - intros download'.
    rewrite <- (optimize_after_ensure download minimize self self1 E).
    unfold optimize.
    now rewrite (ensure_data_cached download' self1 Hc),
                (ensure_data_cached download self1 Hc).
  - intros other Ho Hs Hrf Hmu Hcov.
    rewrite <- (optimize_after_ensure download minimize self self1 E).
    now apply optimize_same_statistics.
Qed.

Lemma optimize_starts_from_uniform_weights_witness :
  let n := length (symbols two_assets_fetched) in
  let x0 := repeat (Fin (1 / INR n)) n in
  let bounds := repeat (Fin 0, Fin 1) n in
  let cons := [mkConstraint CEq sum_to_one] in
  optimize download_two_assets solver_stalls two_assets
  = (r1 <- solver_stalls (negative_sharpe two_assets_fetched) x0 bounds cons ;;
     r2 <- solver_stalls (portfolio_volatility two_assets_fetched) x0 bounds cons ;;
     s1 <- portfolio_stats two_assets_fetched (x r1) ;;
     s2 <- portfolio_stats two_assets_fetched (x r2) ;;
     s3 <- portfolio_stats two_assets_fetched x0 ;;
     Ok (two_assets_fetched,
         mkResults (make_portfolio two_assets_fetched (x r1) s1)
                   (make_portfolio two_assets_fetched (x r2) s2)
                   (make_portfolio two_assets_fetched x0 s3)))
  /\ 0 <= 1 / INR n <= 1
  /\ (forall v, sum_to_one v = Fin 0 <-> np_sum v = Fin 1)
  /\ (forall download',
         optimize download' solver_stalls two_assets_fetched
         = optimize download_two_assets solver_stalls two_assets)
  /\ (forall other,
         returns other <> None ->
         symbols other = symbols two_assets_fetched ->
         risk_free_rate other = risk_free_rate two_assets_fetched ->
         mean_returns other = mean_returns two_assets_fetched ->
         cov_matrix other = cov_matrix two_assets_fetched ->
         (r <- optimize download_two_assets solver_stalls other ;; Ok (snd r))
         = (r <- optimize download_two_assets solver_stalls two_assets ;;
            Ok (snd r))).
Proof.
  apply (optimize_starts_from_uniform_weights download_two_assets solver_stalls
           two_assets two_assets_fetched).
  - exact ensure_two_assets.
  - simpl. lia.
Defined.

(** ** The object across calls *)

Lemma optimize_run_outcome
  (download : list string -> string -> string -> downloaded)
  (minimize :
    (ndarray -> result float64) -> ndarray -> list (float64 * float64) ->
    list constraint -> result OptimizeResult)
  (self : PortfolioOptimizer) :
  optimize download minimize self
  = (res <- snd (optimize_run download minimize self) ;;
     Ok (fst (optimize_run download minimize self), res)).
Proof.
  unfold optimize, optimize_run.
  destruct (ensure_data download self) as [self1 | e]; [| reflexivity].
  cbn [bind fst snd]. split_binds.
Qed.

Lemma optimize_run_object
  (download : list string -> string -> string -> downloaded)
  (minimize :
    (ndarray -> result float64) -> ndarray -> list (float64 * float64) ->
    list constraint -> result OptimizeResult)
  (self self1 : PortfolioOptimizer) :
  ensure_data download self = Ok self1 ->
  fst (optimize_run download minimize self) = self1
  /\ forall download',
       optimize_run download' minimize self1
       = optimize_run download minimize self.
Proof.
  intros E.
  assert (Hc : returns self1 <> None) by (apply ensure_data_symbols in E; tauto).
  unfold optimize_run. rewrite E. split; [reflexivity |].
  intros download'. now rewrite (ensure_data_cached download' self1 Hc).
Qed.

Lemma plot_run_object
  (download : list string -> string -> string -> downloaded)
  (minimize :
    (ndarray -> result float64) -> ndarray -> list (float64 * float64) ->
    list constraint -> result OptimizeResult)
  (rng_state : Type) (np_random : nat -> rng_state -> ndarray * rng_state)
  (render : Plot -> result unit)
  (self self1 : PortfolioOptimizer) (count : Z) (g : rng_state) :
  ensure_data download self = Ok self1 ->
  fst (plot_run download minimize rng_state np_random render self count g) = self1
  /\ forall download',
       plot_run download' minimize rng_state np_random render self1 count g
       = plot_run download minimize rng_state np_random render self count g.
Proof.
  intros E.
  assert (Hc : returns self1 <> None) by (apply ensure_data_symbols in E; tauto).
  assert (Hobj : forall d, optimize_run d minimize self1
                           = optimize_run download minimize self)
    by (intros d; now apply optimize_run_object).
  unfold plot_run. rewrite E. split.
  - destruct (sample_loop _ _ _ _ _ _) as [sg | e]; [| reflexivity].
    rewrite (Hobj download).
    destruct (optimize_run download minimize self) as [s out] eqn:Er.
    pose proof (proj1 (optimize_run_object download minimize self self1 E)) as Hf.
    rewrite Er in Hf. exact Hf.
  - intros download'. rewrite (ensure_data_cached download' self1 Hc).
    destruct (sample_loop _ _ _ _ _ _) as [sg | e]; [| reflexivity].
    now rewrite (Hobj download'), (Hobj download).
Qed.

(** When the download itself fails, nothing is stored: the object is as it
    was and the next call fetches again. *)
Lemma failed_fetch_leaves_object
  (download : list string -> string -> string -> downloaded)
  (minimize :
    (ndarray -> result float64) -> ndarray -> list (float64 * float64) ->
    list constraint -> result OptimizeResult)
  (self : PortfolioOptimizer) (e : exn) :
  returns self = None ->
  fetch_data download self = Raise e ->
  optimize_run download minimize self = (self, Raise e).
Proof.
  intros Hn Hf. unfold optimize_run.
  now rewrite (ensure_data_fresh download self Hn), Hf.
Qed.

(** C9: a new object holds no statistics.  The first [optimize] or frontier
    plot on it stores what [fetch_data] computes, and the object keeps it
    even when that call goes on to raise.  Every later [optimize] or frontier
    plot leaves the object exactly as it is, whatever the download would now
    return, and its outcome is that of the same call made first. *)
Theorem statistics_computed_once_and_cached
  (download : list string -> string -> string -> downloaded)
  (minimize :
    (ndarray -> result float64) -> ndarray -> list (float64 * float64) ->
    list constraint -> result OptimizeResult)
  (rng_state : Type) (np_random : nat -> rng_state -> ndarray * rng_state)
  (render : Plot -> result unit)
  (self self1 : PortfolioOptimizer) :
  returns self = None ->
  fetch_data download self = Ok self1 ->
  (forall syms start_d end_d rf,
      returns (init syms start_d end_d rf) = None
      /\ mean_returns (init syms start_d end_d rf) = None
      /\ cov_matrix (init syms start_d end_d rf) = None)
  /\ fst (optimize_run download minimize self) = self1
  /\ (forall count g,
         fst (plot_run download minimize rng_state np_random render
                       self count g) = self1)
  /\ (returns self1 <> None
      /\ mean_returns self1 <> None
      /\ cov_matrix self1 <> None)
  /\ (forall download' minimize',
         fst (optimize_run download' minimize' self1) = self1)
  /\ (forall download' minimize' render' count g,
         fst (plot_run download' minimize' rng_state np_random render'
                       self1 count g) = self1)
  /\ (forall download',
         snd (optimize_run download' minimize self1)
         = snd (optimize_run download minimize self))
  /\ (forall download' count g,
         snd (plot_run download' minimize rng_state np_random render
                       self1 count g)
         = snd (plot_run download minimize rng_state np_random render
                         self count g)).
Proof.
  intros Hnone Hfetch.
  assert (E : ensure_data download self = Ok self1)
    by (now rewrite (ensure_data_fresh download self Hnone)).
  assert (Hc : returns self1 <> None) by (apply ensure_data_symbols in E; tauto).
  split; [intros; repeat split |].
  split; [now apply optimize_run_object |].
  split; [intros count g; now apply plot_run_object |].
  split.
  { destruct (fetch_data_inv download self self1 Hfetch) as (data & _ & ->).
    repeat split; discriminate. }
  split.
  { intros download' minimize'.
    apply optimize_run_object. now apply ensure_data_cached. }
  split.
  { intros download' minimize' render' count g.
    apply plot_run_object. now apply ensure_data_cached. }
  split.
  - intros download'.
    now rewrite (proj2 (optimize_run_object download minimize self self1 E)).
  - intros download' count g.
    now rewrite (proj2 (plot_run_object download minimize rng_state np_random
                          render self self1 count g E)).
Qed.

Lemma statistics_computed_once_and_cached_witness :
  (forall syms start_d end_d rf,
      returns (init syms start_d end_d rf) = None
      /\ mean_returns (init syms start_d end_d rf) = None
      /\ cov_matrix (init syms start_d end_d rf) = None)
  /\ fst (optimize_run download_two_assets solver_stalls two_assets)
     = two_assets_fetched
  /\ (forall count g,
         fst (plot_run download_two_assets solver_stalls unit draw_halves
                       render_ok two_assets count g) = two_assets_fetched)
  /\ (returns two_assets_fetched <> None
      /\ mean_returns two_assets_fetched <> None
      /\ cov_matrix two_assets_fetched <> None)
  /\ (forall download' minimize',
         fst (optimize_run download' minimize' two_assets_fetched)
         = two_assets_fetched)
  /\ (forall download' minimize' render' count g,
         fst (plot_run download' minimize' unit draw_halves render'
                       two_assets_fetched count g) = two_assets_fetched)
  /\ (forall download',
         snd (optimize_run download' solver_stalls two_assets_fetched)
         = snd (optimize_run download_two_assets solver_stalls two_assets))
  /\ (forall download' count g,
         snd (plot_run download' solver_stalls unit draw_halves render_ok
                       two_assets_fetched count g)
         = snd (plot_run download_two_assets solver_stalls unit draw_halves
                         render_ok two_assets count g)).
Proof.
  apply (statistics_computed_once_and_cached download_two_assets solver_stalls
           unit draw_halves render_ok two_assets two_assets_fetched).
  - reflexivity.
  - exact fetch_two_assets.
Defined.

(** [plot_efficient_frontier] is the outcome of [plot_run] when nothing goes
    wrong in the plotting library. *)
Lemma plot_run_success
  (download : list string -> string -> string -> downloaded)
  (minimize :
    (ndarray -> result float64) -> ndarray -> list (float64 * float64) ->
    list constraint -> result OptimizeResult)
  (rng_state : Type) (np_random : nat -> rng_state -> ndarray * rng_state)
  (render : Plot -> result unit)
  (self s : PortfolioOptimizer) (count : Z) (g g' : rng_state) (p : Plot) :
  plot_run download minimize rng_state np_random render self count g
  = (s, Ok (g', p)) ->
  plot_efficient_frontier download minimize rng_state np_random self count g
  = Ok (s, g', p).
Proof.
  unfold plot_run, plot_efficient_frontier.
  destruct (ensure_data download self) as [self1 | e] eqn:E;
    [| intros H; discriminate H].
  cbn [bind].
  destruct (sample_loop _ _ _ _ _ _) as [sg | e]; [| intros H; discriminate H].
  cbn [bind]. rewrite (optimize_run_outcome download minimize self1).
  destruct (optimize_run download minimize self1) as [s1 out].
  cbn [fst snd]. destruct out as [res | e]; cbn [bind];
    [| intros H; discriminate H].
  destruct (render _); cbn [bind]; intros H; [| discriminate H].
  now injection H as <- <- <-.
Qed.

(** ** The sampled weight vectors and their statistics *)

Lemma sample_seq_lengths (rng_state : Type)
  (np_random : nat -> rng_state -> ndarray * rng_state)
  (self : PortfolioOptimizer) :
  (forall g, length (fst (np_random (length (symbols self)) g))
             = length (symbols self)) ->
  forall n g,
    Forall (fun w => length w = length (symbols self))
           (fst (sample_seq rng_state np_random self n g)).
Proof.
  intros Hrng. induction n as [| n IH]; intros g; [constructor |].
  cbn [sample_seq]. unfold sample_weights at 1.
  specialize (Hrng g).
  destruct (np_random (length (symbols self)) g) as [w g1]. simpl in Hrng.
  specialize (IH g1).
  destruct (sample_seq rng_state np_random self n g1) as [ws g2].
  simpl in *. constructor; [now rewrite length_normalize | exact IH].
Qed.

Lemma mapM_portfolio_stats_total (self : PortfolioOptimizer) (ws : list ndarray) :
  well_shaped self ->
  Forall (fun w => length w = length (symbols self)) ws ->
  exists sts, mapM (portfolio_stats self) ws = Ok sts
              /\ length sts = length ws.
Proof.
  intros Hshape. induction 1 as [| w ws Hw _ (sts & Hsts & Hlen)].
  - exists []. split; reflexivity.
  - destruct (portfolio_stats_total self w Hshape Hw) as (st & Hst).
    exists (st :: sts). simpl. rewrite Hst. cbn [bind]. rewrite Hsts.
    cbn [bind]. split; [reflexivity |]. simpl. now rewrite Hlen.
Qed.

(** C5 as amended: every iteration draws one value per symbol and divides
    each draw by the sum of the draws, without rejecting any.  For draws in
    [0, 1) with a positive sum the weights are finite and lie in the closed
    interval [0, 1].  Over [count] iterations the loop evaluates
    [portfolio_stats] on each of the [count] weight vectors so drawn and
    fills the three lists with their returns, volatilities and Sharpe
    ratios, [count] entries each. *)
Theorem frontier_samples_are_normalized (rng_state : Type)
  (np_random : nat -> rng_state -> ndarray * rng_state)
  (self : PortfolioOptimizer) :
  well_shaped self ->
  (forall g, length (fst (np_random (length (symbols self)) g))
             = length (symbols self)) ->
  (forall g, sample_weights rng_state np_random self g
             = (normalize (fst (np_random (length (symbols self)) g)),
                snd (np_random (length (symbols self)) g)))
  /\ (forall g d,
         fst (np_random (length (symbols self)) g) = map Fin d ->
         Forall (fun a => 0 <= a < 1) d ->
         0 < Rsum d ->
         fst (sample_weights rng_state np_random self g)
         = map Fin (map (fun a => a / Rsum d) d)
         /\ Forall (fun a => 0 <= a <= 1) (map (fun a => a / Rsum d) d))
  /\ (forall count g,
         (0 <= count)%Z ->
         exists sts,
           mapM (portfolio_stats self)
                (fst (sample_seq rng_state np_random self (Z.to_nat count) g))
           = Ok sts
           /\ sample_loop rng_state np_random self (Z.to_nat count) g
                          (mkSamples [] [] [])
              = Ok (samples_of sts,
                    snd (sample_seq rng_state np_random self (Z.to_nat count) g))
           /\ Z.of_nat (length (fst (sample_seq rng_state np_random self
                                       (Z.to_nat count) g))) = count
           /\ Z.of_nat (length (returns_list (samples_of sts))) = count
           /\ Z.of_nat (length (volatility_list (samples_of sts))) = count
           /\ Z.of_nat (length (sharpe_list (samples_of sts))) = count).
Proof.
  intros Hshape Hrng. split; [| split].
  - intros g. unfold sample_weights.
    now destruct (np_random (length (symbols self)) g).
  - intros g d Hd Hrange Hs.
    assert (Hnn : Forall (fun a => 0 <= a) d)
      by (eapply Forall_impl; [| exact Hrange]; simpl; intros; lra).
    split; [now apply sample_weights_fin |].
    apply Forall_forall. intros b Hb. apply in_map_iff in Hb as (a & <- & Ha).
    pose proof (In_le_Rsum d a Hnn Ha) as Hle.
    rewrite Forall_forall in Hnn. pose proof (Hnn a Ha) as H0.
    split.
    + apply Rmult_le_pos; [lra |]. apply Rlt_le, Rinv_0_lt_compat, Hs.
    + apply (Rmult_le_reg_r (Rsum d)); [exact Hs |].
      unfold Rdiv. rewrite Rmult_assoc, Rinv_l by lra. lra.
  - intros count g Hcount.
    pose proof (length_sample_seq rng_state np_random self (Z.to_nat count) g)
      as Hlen.
    destruct (mapM_portfolio_stats_total self
                (fst (sample_seq rng_state np_random self (Z.to_nat count) g))
                Hshape
                (sample_seq_lengths rng_state np_random self Hrng
                   (Z.to_nat count) g))
      as (sts & Hsts & Lsts).
    exists sts. split; [exact Hsts |]. split.
    + rewrite sample_loop_as_map, Hsts. cbn [bind].
      rewrite fold_append_sample. reflexivity.
    + unfold samples_of. cbn [returns_list volatility_list sharpe_list].
      rewrite !length_map, Lsts, Hlen. repeat split; apply Z2Nat.id; exact Hcount.
Qed.

Lemma frontier_samples_are_normalized_witness :
  (forall g, sample_weights unit draw_halves two_assets_fetched g
             = (normalize (fst (draw_halves (length (symbols two_assets_fetched)) g)),
                snd (draw_halves (length (symbols two_assets_fetched)) g)))
  /\ (forall g d,
         fst (draw_halves (length (symbols two_assets_fetched)) g) = map Fin d ->
         Forall (fun a => 0 <= a < 1) d ->
         0 < Rsum d ->
         fst (sample_weights unit draw_halves two_assets_fetched g)
         = map Fin (map (fun a => a / Rsum d) d)
         /\ Forall (fun a => 0 <= a <= 1) (map (fun a => a / Rsum d) d))
  /\ (forall count g,
         (0 <= count)%Z ->
         exists sts,
           mapM (portfolio_stats two_assets_fetched)
                (fst (sample_seq unit draw_halves two_assets_fetched
                        (Z.to_nat count) g))
           = Ok sts
           /\ sample_loop unit draw_halves two_assets_fetched (Z.to_nat count) g
                          (mkSamples [] [] [])
              = Ok (samples_of sts,
                    snd (sample_seq unit draw_halves two_assets_fetched
                           (Z.to_nat count) g))
           /\ Z.of_nat (length (fst (sample_seq unit draw_halves
                                       two_assets_fetched (Z.to_nat count) g)))
              = count
           /\ Z.of_nat (length (returns_list (samples_of sts))) = count
           /\ Z.of_nat (length (volatility_list (samples_of sts))) = count
           /\ Z.of_nat (length (sharpe_list (samples_of sts))) = count).
Proof.
  apply (frontier_samples_are_normalized unit draw_halves two_assets_fetched).
  - exists (map Fin two_asset_means), (map (map Fin) two_asset_cov).
    repeat split. repeat constructor.
  - intros g. reflexivity.
Defined.
